(** * Preference-driven inference orchestration of the dashboard page

    A shallow embedding of the coordination logic of the [Home] component
    (the page that owns the slider, the focus toggle, the wallet field and
    the "Run signal" button):

    - [snapWeight], the two-valued quantisation of the slider value;
    - the request weights computed at the head of [runInference];
    - [runInference] itself, split at its suspension into the part that
      runs up to the [fetch] and the continuation that runs when the
      awaited call settles;
    - the debounce [useEffect] and the two ref-mirroring effects, run
      after every render whose dependencies changed;
    - the event handlers [handleWeightChange], [handleFocusChange],
      [handleWalletChange] and [handleRunSignal];
    - an event loop with a clock, the pending timeout, the heap of
      [AbortController]s and the calls in flight, on which sessions of
      the component are run.

    The page exists in several revisions.  The one embedded here is the
    revision whose [runInference] mirrors the wallet and the bias in
    [walletRef] and [weightRef], aborts the previous controller before it
    allocates its own and returns at [controller.signal.aborted] in both
    the [try] and the [catch] block.  [snapWeight] is the same in every
    revision that has it.

    Numbers.  Slider positions and biases are integers ([Z]); the weights of
    a request are exact rationals ([Q]).  The two arithmetic functions are
    also given as the engine computes them, on IEEE 754 doubles, in
    [Binary64].  Strings are [string].  The [AbortController] objects live
    in a heap indexed by allocation order, and the one the component
    currently holds in [inferenceController] is a reference into it.

    The cells of the page that the coordination never reads or writes
    ([hydrated], the trust datasets and their status, the DOM refs) are
    left out. *)

From Stdlib Require Import ZArith QArith Qminmax Lqa String Ascii List Lia Bool.
From Stdlib Require Import Floats Uint63.
From stdpp Require Import base list.
Import ListNotations.

Open Scope string_scope.
Open Scope Z_scope.

(** ** Types of the dashboard ([types/dashboard.ts]) *)

Module Dashboard.

Inductive FocusMode := price | sentiment.

Record Recommendation := {
  action : string;
  probability : Q;
  rationale : option string;
}.

Record ClusterInsight := {
  id : Z;
  label : option string;
  description : option string;
  drivers : option (list string);
  metrics : option (list (string * Q));
}.

End Dashboard.

Export Dashboard(FocusMode, price, sentiment, Recommendation, ClusterInsight).

(** ** Module-level constants of the page *)

Definition snapWeight (value : Z) : Z := if value <? 50 then 50 else 60.

Definition DEMO_RECOMMENDATIONS : list Recommendation := [
  {| Dashboard.action := "restake";
     Dashboard.probability := 0.58;
     Dashboard.rationale :=
       Some "Price-weighted snapshot favours compounding rewards." |};
  {| Dashboard.action := "stake";
     Dashboard.probability := 0.29;
     Dashboard.rationale :=
       Some "Neutral stance keeps capital deployed in baseline pools." |};
  {| Dashboard.action := "liquid_stake";
     Dashboard.probability := 0.13;
     Dashboard.rationale :=
       Some "Liquidity optionality remains a secondary hedge." |}
].

Definition DEMO_CLUSTER : ClusterInsight := {|
  Dashboard.id := 0;
  Dashboard.label := Some "Restake skew";
  Dashboard.description :=
    Some "APR momentum trending higher alongside elevated withdrawer counts.";
  Dashboard.drivers := Some [
    "Daily APR sits near local highs with positive netflows.";
    "Depositors outpace withdrawers after semantic boost."
  ];
  Dashboard.metrics := Some [
    ("daily_apr", 0.0259%Q);
    ("withdraw", (-3200)%Q);
    ("deposit", 12500%Q);
    ("daily_netflow", 9300%Q);
    ("withdrawers", 58%Q);
    ("depositors", 72%Q)
  ];
|}.

Definition DEFAULT_NARRATIVE : string :=
  "Models are syncing signals -- adjust the slider to see how focus shifts recommendations.".

Definition DEMO_NARRATIVE : string :=
  "Claude notes a restake tilt with liquidity hedges kept light; watch deposits outpacing withdrawals.".

(** The four messages [runInference] passes to [setModelMessage]. *)
Definition DEMO_MESSAGE : string := "Demo snapshot loaded locally.".

Definition AUTO_MESSAGE : string := "Updating signals to reflect the slider.".

Definition MANUAL_MESSAGE : string := "Fetching the freshest signal mix.".

Definition FALLBACK_MESSAGE : string :=
  "Falling back to demo snapshot while the model API is unreachable.".

(** The debounce window of the slider effect, in milliseconds. *)
Definition DEBOUNCE_MS : Z := 600.

(** ** The wire format of the Signal Service *)

(** Body of the [POST /signals] request ([payload], built by
    [runInference]). *)
Module Request.

Record t := {
  price_weight : Q;
  sentiment_weight : Q;
  wallet : option string;
}.

End Request.

(** Decoded JSON body of a response.  Every key is optional; the
    continuation of [runInference] reads each one through [??], which
    treats a missing key and [null] alike. *)
Module Response.

Record t := {
  recommendations : option (list Recommendation);
  cluster : option ClusterInsight;
  message : option string;
  narrative : option string;
  generated_at : option string;
}.

Definition empty : t := {|
  recommendations := None;
  cluster := None;
  message := None;
  narrative := None;
  generated_at := None;
|}.

End Response.

(** How the awaited call of one [runInference] invocation settles:
    - [Rejected]: the promise returned by [fetch] rejects (the connection
      failed, or the signal was aborted);
    - [Responded status json]: a response with this HTTP status arrived;
      [json] is the decoded body, or [None] when [response.json()] rejects
      or yields [null] (reading a key of it throws). *)
Inductive Settlement :=
| Rejected
| Responded (status : Z) (json : option Response.t).

(** [response.ok] *)
Definition response_ok (status : Z) : bool :=
  (200 <=? status) && (status <=? 299).

(** ** State of the component *)

Inductive RecStatus := idle | loading | error.

Inductive Trigger := Auto | Manual.

(** The [useState] cells that steer requests. *)
Record Preference := {
  focus : FocusMode;
  weight : Z;
  effectiveBias : Z;
  wallet : string;
}.

(** The [useState] cells that hold the outcome of the last run. *)
Record Display := {
  recStatus : RecStatus;
  recommendations : list Recommendation;
  clusterInsight : option ClusterInsight;
  modelMessage : option string;
  lastRunAt : option string;
  narrativeCopy : string;
}.

(** The [useRef] cells.  [inferenceController] points into the heap of
    controllers of the runtime. *)
Record Refs := {
  inferenceController : option nat;
  walletRef : string;
  weightRef : Z;
}.

(** A pending [setTimeout] of the debounce effect: the time it is due and
    the [effectiveBias] its callback closed over. *)
Record Timeout := {
  due : Z;
  captured_bias : Z;
}.

(** One [fetch] call: the body it carries and the controller whose signal
    it listens to. *)
Record Fetch := {
  body : Request.t;
  signal : nat;
}.

(** The part of the JavaScript runtime the component talks to: the clock
    (milliseconds), the heap of [AbortController]s (the [aborted] flag of
    each, in allocation order), the timeout of the debounce effect, every
    [fetch] issued so far, and the controllers of the calls that have not
    settled yet. *)
Record Runtime := {
  clock : Z;
  controllers : list bool;
  debounce : option Timeout;
  fetches : list Fetch;
  inflight : list nat;
}.

Record Home := {
  pref : Preference;
  shown : Display;
  refs : Refs;
  env : Runtime;
}.

Notation "x |> f" := (f x) (at level 45, left associativity, only parsing).

(** *** State setters *)

Definition withPref (f : Preference -> Preference) (h : Home) : Home :=
  {| pref := f (pref h); shown := shown h; refs := refs h; env := env h |}.

Definition withShown (f : Display -> Display) (h : Home) : Home :=
  {| pref := pref h; shown := f (shown h); refs := refs h; env := env h |}.

Definition withRefs (f : Refs -> Refs) (h : Home) : Home :=
  {| pref := pref h; shown := shown h; refs := f (refs h); env := env h |}.

Definition withEnv (f : Runtime -> Runtime) (h : Home) : Home :=
  {| pref := pref h; shown := shown h; refs := refs h; env := f (env h) |}.

Definition setFocus (v : FocusMode) : Home -> Home :=
  withPref (fun p => {| focus := v; weight := weight p;
                        effectiveBias := effectiveBias p; wallet := wallet p |}).

Definition setWeight (v : Z) : Home -> Home :=
  withPref (fun p => {| focus := focus p; weight := v;
                        effectiveBias := effectiveBias p; wallet := wallet p |}).

Definition setEffectiveBias (v : Z) : Home -> Home :=
  withPref (fun p => {| focus := focus p; weight := weight p;
                        effectiveBias := v; wallet := wallet p |}).

Definition setWallet (v : string) : Home -> Home :=
  withPref (fun p => {| focus := focus p; weight := weight p;
                        effectiveBias := effectiveBias p; wallet := v |}).

Definition setRecStatus (v : RecStatus) : Home -> Home :=
  withShown (fun d => {| recStatus := v;
    recommendations := recommendations d; clusterInsight := clusterInsight d;
    modelMessage := modelMessage d; lastRunAt := lastRunAt d;
    narrativeCopy := narrativeCopy d |}).

Definition setRecommendations (v : list Recommendation) : Home -> Home :=
  withShown (fun d => {| recStatus := recStatus d;
    recommendations := v; clusterInsight := clusterInsight d;
    modelMessage := modelMessage d; lastRunAt := lastRunAt d;
    narrativeCopy := narrativeCopy d |}).

Definition setClusterInsight (v : option ClusterInsight) : Home -> Home :=
  withShown (fun d => {| recStatus := recStatus d;
    recommendations := recommendations d; clusterInsight := v;
    modelMessage := modelMessage d; lastRunAt := lastRunAt d;
    narrativeCopy := narrativeCopy d |}).

Definition setModelMessage (v : option string) : Home -> Home :=
  withShown (fun d => {| recStatus := recStatus d;
    recommendations := recommendations d; clusterInsight := clusterInsight d;
    modelMessage := v; lastRunAt := lastRunAt d;
    narrativeCopy := narrativeCopy d |}).

Definition setLastRunAt (v : option string) : Home -> Home :=
  withShown (fun d => {| recStatus := recStatus d;
    recommendations := recommendations d; clusterInsight := clusterInsight d;
    modelMessage := modelMessage d; lastRunAt := v;
    narrativeCopy := narrativeCopy d |}).

Definition setNarrativeCopy (v : string) : Home -> Home :=
  withShown (fun d => {| recStatus := recStatus d;
    recommendations := recommendations d; clusterInsight := clusterInsight d;
    modelMessage := modelMessage d; lastRunAt := lastRunAt d;
    narrativeCopy := v |}).

Definition setInferenceController (v : option nat) : Home -> Home :=
  withRefs (fun r => {| inferenceController := v;
                        walletRef := walletRef r; weightRef := weightRef r |}).

Definition setWalletRef (v : string) : Home -> Home :=
  withRefs (fun r => {| inferenceController := inferenceController r;
                        walletRef := v; weightRef := weightRef r |}).

Definition setWeightRef (v : Z) : Home -> Home :=
  withRefs (fun r => {| inferenceController := inferenceController r;
                        walletRef := walletRef r; weightRef := v |}).

Definition setClock (v : Z) : Home -> Home :=
  withEnv (fun e => {| clock := v; controllers := controllers e;
    debounce := debounce e; fetches := fetches e; inflight := inflight e |}).

Definition setControllers (v : list bool) : Home -> Home :=
  withEnv (fun e => {| clock := clock e; controllers := v;
    debounce := debounce e; fetches := fetches e; inflight := inflight e |}).

Definition setDebounce (v : option Timeout) : Home -> Home :=
  withEnv (fun e => {| clock := clock e; controllers := controllers e;
    debounce := v; fetches := fetches e; inflight := inflight e |}).

Definition setFetches (v : list Fetch) : Home -> Home :=
  withEnv (fun e => {| clock := clock e; controllers := controllers e;
    debounce := debounce e; fetches := v; inflight := inflight e |}).

Definition setInflight (v : list nat) : Home -> Home :=
  withEnv (fun e => {| clock := clock e; controllers := controllers e;
    debounce := debounce e; fetches := fetches e; inflight := v |}).

(** ** BiasMapper: the weights of a request *)

(** The first two lines of [runInference]'s body: the price weight is the
    bias as a fraction, clamped to the unit interval
    ([Math.min(Math.max(effectiveBias / 100, 0), 1)]), and the sentiment
    weight is its complement. *)
Definition toRequestWeights (effectiveBias : Z) : Q * Q :=
  let priceWeight := Qmin (Qmax (inject_Z effectiveBias / 100) 0) 1 in
  let sentimentWeight := (1 - priceWeight)%Q in
  (priceWeight, sentimentWeight).

(** ** The same arithmetic on doubles

    A JavaScript number is an IEEE 754 double.  [Math.max] and [Math.min]
    return NaN when an argument is NaN and order -0 below +0; [<] is false
    when an argument is NaN. *)

Module Binary64.

Definition Math_max (x y : float) : float :=
  if is_nan x || is_nan y then nan
  else if (x <? y)%float then y
  else if (y <? x)%float then x
  else if get_sign x then y else x.

Definition Math_min (x y : float) : float :=
  if is_nan x || is_nan y then nan
  else if (x <? y)%float then x
  else if (y <? x)%float then y
  else if get_sign x then x else y.

Definition snapWeight (value : float) : float :=
  if (value <? 50)%float then 50%float else 60%float.

Definition toRequestWeights (effectiveBias : float) : float * float :=
  let priceWeight := Math_min (Math_max (effectiveBias / 100) 0) 1 in
  let sentimentWeight := (1 - priceWeight)%float in
  (priceWeight, sentimentWeight).

(** The double of a small non-negative integer. *)
Definition ofZ (n : Z) : float := of_uint63 (Uint63.of_Z n).

End Binary64.

(** ** AbortControllers *)

(** [controller.signal.aborted] *)
Definition aborted (c : nat) (h : Home) : bool :=
  default false (controllers (env h) !! c).

(** [controller.abort()] *)
Definition abort (c : nat) (h : Home) : Home :=
  setControllers (<[c := true]> (controllers (env h))) h.

(** [inferenceController.current?.abort()] *)
Definition abortCurrent (h : Home) : Home :=
  match inferenceController (refs h) with
  | Some c => abort c h
  | None => h
  end.

(** [new AbortController()]: a fresh controller, not aborted. *)
Definition newAbortController (h : Home) : nat * Home :=
  (length (controllers (env h)),
   setControllers (controllers (env h) ++ [false]) h).

(** [fetch(url, { body, signal })]: the call goes on the wire and is
    awaited. *)
Definition fetch (payload : Request.t) (controller : nat) (h : Home) : Home :=
  h |> setFetches (fetches (env h) ++ [{| body := payload; signal := controller |}])
    |> setInflight (inflight (env h) ++ [controller]).

(** ** Two built-ins of the JavaScript runtime

    The component calls [String.prototype.trim] and
    [Date.prototype.toISOString].  Nothing proved below depends on what
    they compute: the component is stated over an arbitrary pair of such
    functions.  The definitions here are the ones used to run it on
    concrete inputs; [trim] strips the ASCII white space (tab, line feed,
    vertical tab, form feed, carriage return, space), and [toISOString]
    renders a count of milliseconds since the epoch in UTC. *)

Module Builtin.

Definition isWhiteSpace (c : ascii) : bool :=
  match nat_of_ascii c with
  | 9%nat | 10%nat | 11%nat | 12%nat | 13%nat | 32%nat => true
  | _ => false
  end.

Fixpoint trimStart (s : string) : string :=
  match s with
  | String c s' => if isWhiteSpace c then trimStart s' else s
  | EmptyString => EmptyString
  end.

Fixpoint trimEnd (s : string) : string :=
  match s with
  | String c s' =>
      match trimEnd s' with
      | EmptyString =>
          if isWhiteSpace c then EmptyString else String c EmptyString
      | r => String c r
      end
  | EmptyString => EmptyString
  end.

Definition trim (s : string) : string := trimEnd (trimStart s).

(** The [n] low decimal digits of [z], zero-padded. *)
Fixpoint digits (n : nat) (z : Z) : string :=
  match n with
  | O => EmptyString
  | S n' =>
      digits n' (z / 10)
      ++ String (ascii_of_nat (48 + Z.to_nat (z mod 10))) EmptyString
  end.

(** Year, month and day of the proleptic Gregorian calendar from a count
    of days since 1970-01-01. *)
Definition civil (days : Z) : Z * Z * Z :=
  let z := days + 719468 in
  let era := z / 146097 in
  let doe := z - era * 146097 in
  let yoe := (doe - doe / 1460 + doe / 36524 - doe / 146096) / 365 in
  let doy := doe - (365 * yoe + yoe / 4 - yoe / 100) in
  let mp := (5 * doy + 2) / 153 in
  let d := doy - (153 * mp + 2) / 5 + 1 in
  let m := if mp <? 10 then mp + 3 else mp - 9 in
  let y := yoe + era * 400 + (if m <=? 2 then 1 else 0) in
  (y, m, d).

Definition toISOString (ms : Z) : string :=
  let '(y, m, d) := civil (ms / 86400000) in
  let r := ms mod 86400000 in
  let year :=
    if (0 <=? y) && (y <=? 9999) then digits 4 y
    else if y <? 0 then "-" ++ digits 6 (- y) else "+" ++ digits 6 y in
  year ++ "-" ++ digits 2 m ++ "-" ++ digits 2 d ++ "T"
       ++ digits 2 (r / 3600000) ++ ":" ++ digits 2 (r / 60000 mod 60) ++ ":"
       ++ digits 2 (r / 1000 mod 60) ++ "." ++ digits 3 (r mod 1000) ++ "Z".

End Builtin.

(** ** The component *)

Record RunArgs := {
  trigger : Trigger;
  bias : option Z;
  includeWallet : bool;
}.

(** ** The cards that read the outcome of a run

    Of each card, the conditions under which it renders its parts. *)

Definition isLoading (s : RecStatus) : bool :=
  match s with loading => true | _ => false end.

Definition isError (s : RecStatus) : bool :=
  match s with error => true | _ => false end.

Module WalletSignalCard.

(** [disabled={recStatus === "loading" || disabled}] of the "Run signal"
    button. *)
Definition runDisabled (recStatus : RecStatus) (disabled : bool) : bool :=
  isLoading recStatus || disabled.

(** The line under the wallet field, [{modelMessage && (...)}]: nothing
    for [null] and for the empty string, else the message behind a prefix
    chosen by the status. *)
Definition messageLine (recStatus : RecStatus) (modelMessage : option string)
  : option string :=
  match modelMessage with
  | Some m =>
      if (m =? "")%string then None
      else Some ((if isError recStatus then "Heads up: " else "Latest: ") ++ m)
  | None => None
  end.

End WalletSignalCard.

Module ActionStackCard.

(** The four conditional parts of the card body, in the order of the
    markup: the loading skeleton, the empty-state note, the rows (one per
    recommendation) and the error note. *)
Record Body := {
  skeleton : bool;
  emptyNote : bool;
  rows : list Recommendation;
  errorNote : bool;
}.

Definition body (recommendations : list Recommendation) (recStatus : RecStatus)
  : Body :=
  {| skeleton := isLoading recStatus;
     emptyNote := negb (isLoading recStatus)
                  && (length recommendations =? 0)%nat;
     rows := if negb (isLoading recStatus) then recommendations else [];
     errorNote := isError recStatus |}.

End ActionStackCard.

Module ClusterInsightCard.

(** [key.replace(/_/g, " ")] *)
Fixpoint replaceUnderscores (key : string) : string :=
  match key with
  | EmptyString => EmptyString
  | String c rest =>
      String (if Ascii.eqb c "_" then " "%char else c) (replaceUnderscores rest)
  end.

(** The metric tiles: [Object.entries(metrics).slice(0, 4)], each with its
    key relabelled.  The entries are in the order of the object's keys. *)
Definition metricTiles (metrics : list (string * Q)) : list (string * Q) :=
  map (fun '(key, value) => (replaceUnderscores key, value)) (firstn 4 metrics).

(** The three states of the card: the insight, the loading skeleton, or
    the hint to run a signal. *)
Inductive Body := Insight (c : ClusterInsight) | Skeleton | Hint.

Definition body (clusterInsight : option ClusterInsight) (recStatus : RecStatus)
  : Body :=
  match clusterInsight with
  | Some c => Insight c
  | None => if isLoading recStatus then Skeleton else Hint
  end.

End ClusterInsightCard.

(** ** The confidence figure of the stat cards

    [confidenceScore], the [useMemo] over [focus] and [weight], as the
    engine computes it on doubles.  [Math.round] is the integer nearest to
    its argument, the larger one on a tie; not-a-number, the infinities
    and the zeros are returned as they are, and a result of zero keeps
    the sign of the argument.  It is computed here from the exact value
    of the double. *)

Module Confidence.

#[local] Set Warnings "-inexact-float".

Definition Math_round (x : float) : float :=
  match Prim2SF x with
  | S754_finite s m e =>
      if 0 <=? e then x
      else
        let d := 2 ^ (- e) in
        let v := if s then - Z.pos m else Z.pos m in
        let n := (2 * v + d) / (2 * d) in
        if n =? 0 then (if s then (-0)%float else 0%float)
        else if n <? 0 then (- of_uint63 (Uint63.of_Z (- n)))%float
        else of_uint63 (Uint63.of_Z n)
  | _ => x
  end.

Definition confidenceScore (focus : FocusMode) (weight : float) : float :=
  let priceBias := (weight / 100)%float in
  let sentimentBias := (1 - priceBias)%float in
  let base :=
    match focus with price => 0.62%float | sentiment => 0.55%float end in
  Math_round ((base + priceBias * 0.25 + sentimentBias * 0.2) * 100)%float.

End Confidence.

(** ** The trust datasets

    The effect that loads the dataset registry once when the page mounts
    (the same code is the hook [useTrustDatasets]), and the panel that
    shows it.  [cancelled] is the flag of the effect's closure, set by its
    cleanup; [pending] says whether the one call is still awaited. *)

Module Trust.

Record Attestation := {
  simulated : option bool;
  proof_id : option string;
  confidence : option Q;
}.

Record ZkpSimulation := {
  zkp_status : option string;
  scheme : option string;
}.

Record TrustDataset := {
  id : string;
  label : string;
  status : string;
  sha256 : option string;
  last_verified_at : option string;
  eigenlayer_attestation : option Attestation;
  zkp_simulation : option ZkpSimulation;
}.

(** Decoded body of the registry's response. *)
Record Payload := {
  datasets : option (list TrustDataset);
}.

Inductive Settlement :=
| Rejected
| Responded (http_status : Z) (json : option Payload).

Record State := {
  trustDatasets : list TrustDataset;
  trustStatus : RecStatus;
  cancelled : bool;
  pending : bool;
}.

(** The first render, before the effect has run. *)
Definition initial : State :=
  {| trustDatasets := []; trustStatus := idle;
     cancelled := false; pending := false |}.

(** [fetchTrust] up to the awaited [fetch]. *)
Definition fetchTrust (s : State) : State :=
  {| trustDatasets := trustDatasets s; trustStatus := loading;
     cancelled := cancelled s; pending := true |}.

Definition awaited (o : Settlement) : option Payload :=
  match o with
  | Rejected => None
  | Responded http_status json =>
      if response_ok http_status then json else None
  end.

(** [fetchTrust] from the awaited [fetch] on. *)
Definition resume (o : Settlement) (s : State) : State :=
  match awaited o with
  | Some payload =>
      if cancelled s then s
      else {| trustDatasets := default [] (datasets payload);
              trustStatus := idle;
              cancelled := cancelled s; pending := pending s |}
  | None =>
      if cancelled s then s
      else {| trustDatasets := trustDatasets s; trustStatus := error;
              cancelled := cancelled s; pending := pending s |}
  end.

(** The cleanup of the effect. *)
Definition cleanup (s : State) : State :=
  {| trustDatasets := trustDatasets s; trustStatus := trustStatus s;
     cancelled := true; pending := pending s |}.

(** The effect has no dependencies: it runs once, after the first
    render. *)
Definition mount : State := fetchTrust initial.

Inductive Event :=
| Settled (o : Settlement)
| Unmounted.

(** One task of the event loop.  The call settles once. *)
Definition handle (ev : Event) (s : State) : State :=
  match ev with
  | Settled o =>
      if pending s then
        resume o {| trustDatasets := trustDatasets s;
                    trustStatus := trustStatus s;
                    cancelled := cancelled s; pending := false |}
      else s
  | Unmounted => cleanup s
  end.

Definition run (s : State) (trace : list Event) : State :=
  fold_left (fun s ev => handle ev s) trace s.

Inductive reachable : State -> Prop :=
| reach_mount : reachable mount
| reach_handle (ev : Event) (s : State) :
    reachable s -> reachable (handle ev s).

(** *** [TrustVerificationPanel] *)

Definition badge (status : RecStatus) : string :=
  match status with
  | loading => "Refreshing proofs..."
  | error => "Verification unavailable"
  | idle => "Verified by EigenLayer"
  end.

(** [dataset.status === "ok"] *)
Definition verified (d : TrustDataset) : bool := (status d =? "ok")%string.

(** [dataset.sha256 ?? "n/a"] *)
Definition hashText (d : TrustDataset) : string := default "n/a" (sha256 d).

(** The parts of the grid: the skeleton, the error box, and the datasets
    that get a card. *)
Record Body := {
  skeleton : bool;
  errorBox : bool;
  cards : list TrustDataset;
}.

Definition body (status : RecStatus) (datasets : list TrustDataset) : Body :=
  {| skeleton := isLoading status;
     errorBox := isError status;
     cards := if negb (isError status) then datasets else [] |}.

End Trust.

(** ** The page with the preference panel

    The revision of the page that renders [PreferencePanel].  Its
    [runInference] has no wallet trimming and no clamping, does not write
    the message when it starts, drops a debounced run while the status is
    Loading, and tells a cancelled call from a failed one by the name of
    the error it catches.  It is a [useCallback] over [effectiveBias] and
    [recStatus] and reads both from its closure, so the timeout of the
    debounce effect keeps, with the bias it was given, the status its
    [runInference] closed over. *)

Module Panel.

Definition DEFAULT_NARRATIVE : string :=
  "Models are syncing signals—adjust the slider to see how focus shifts recommendations.".

(** The errors the [catch] block tells apart: [error.name === "AbortError"]
    or anything else. *)
Inductive Thrown := AbortError | OtherError.

(** How the awaited call settles: the promise of [fetch] rejects, or a
    response arrives whose [json()] yields the decoded body or rejects
    (of a [null] body, reading a key throws). *)
Inductive Settlement :=
| Rejected (e : Thrown)
| Responded (status : Z) (json : Thrown + Response.t).

(** The component together with the status the [runInference] of the
    pending timeout closed over. *)
Record Page := {
  home : Home;
  armed_status : RecStatus;
}.

Inductive Event :=
| SliderInput (value : Z)
| FocusChange (mode : FocusMode)
| WalletInput (value : string)
| RunSignal
| Settled (controller : nat) (o : Settlement)
| Unmount.

Section PanelPage.

Variable USE_DEMO_SIGNALS : bool.
Variable DEMO_WEIGHT : Z.
Variable toISOString : Z -> string.

(** [runInference] up to the awaited [fetch]; [closure_bias] and
    [closure_status] are the [effectiveBias] and [recStatus] of the render
    that created it. *)
Definition runInference (closure_bias : Z) (closure_status : RecStatus)
    (args : RunArgs) (h : Home) : Home :=
  if USE_DEMO_SIGNALS then
    h |> setRecommendations DEMO_RECOMMENDATIONS
      |> setClusterInsight (Some DEMO_CLUSTER)
      |> setNarrativeCopy DEMO_NARRATIVE
      |> setLastRunAt (Some (toISOString (clock (env h))))
  else if isLoading closure_status
          && match trigger args with Auto => true | Manual => false end
  then h
  else
    let '(controller, h) := newAbortController h in
    let h := abortCurrent h in
    let effectiveBias := default closure_bias (bias args) in
    h |> setInferenceController (Some controller)
      |> setRecStatus loading
      |> fetch {| Request.price_weight := inject_Z effectiveBias / 100;
                  Request.sentiment_weight := 1 - inject_Z effectiveBias / 100;
                  Request.wallet :=
                    if includeWallet args then Some (walletRef (refs h))
                    else None |}
               controller.

(** The [try] block after the [await]: the decoded body, or what is
    thrown. *)
Definition awaited (o : Settlement) : Thrown + Response.t :=
  match o with
  | Rejected e => inl e
  | Responded status json =>
      if response_ok status then json else inl OtherError
  end.

Definition applyResponse (r : Response.t) (h : Home) : Home :=
  h |> setRecommendations (default [] (Response.recommendations r))
    |> setClusterInsight (Response.cluster r)
    |> setModelMessage (Response.message r)
    |> setNarrativeCopy (default DEFAULT_NARRATIVE (Response.narrative r))
    |> setLastRunAt
         (Some (default (toISOString (clock (env h))) (Response.generated_at r)))
    |> setRecStatus idle.

Definition applyFallback (h : Home) : Home :=
  h |> setRecommendations DEMO_RECOMMENDATIONS
    |> setClusterInsight (Some DEMO_CLUSTER)
    |> setModelMessage (Some FALLBACK_MESSAGE)
    |> setLastRunAt (Some (toISOString (clock (env h))))
    |> setNarrativeCopy DEFAULT_NARRATIVE
    |> setRecStatus error.

(** The continuation of a run. *)
Definition resume (o : Settlement) (h : Home) : Home :=
  match awaited o with
  | inr r => applyResponse r h
  | inl AbortError => h
  | inl OtherError => applyFallback h
  end.

(** What the runtime delivers for the call of [controller]: once its
    signal is aborted, the pending [fetch] or [json()] rejects with an
    [AbortError]. *)
Definition delivered (controller : nat) (o : Settlement) (h : Home)
  : Settlement :=
  if aborted controller h then Rejected AbortError else o.

Definition handleFocusChange (mode : FocusMode) (h : Home) : Home :=
  h |> setFocus mode
    |> setWeight (match mode with price => 75 | sentiment => 25 end).

Definition handleSliderInput (value : Z) (h : Home) : Home :=
  let snapped := snapWeight value in
  h |> setWeight value
    |> setFocus (if 50 <=? snapped then price else sentiment)
    |> setEffectiveBias snapped.

(** [handleRunSignal], called from the render whose state is [h]. *)
Definition handleRunSignal (includeWallet : bool) (h : Home) : Home :=
  runInference (effectiveBias (pref h)) (recStatus (shown h))
    {| trigger := Manual; bias := None; includeWallet := includeWallet |} h.

Definition walletRefEffect (prev h : Home) : Home :=
  if String.eqb (wallet (pref prev)) (wallet (pref h)) then h
  else setWalletRef (wallet (pref h)) h.

Definition weightRefEffect (prev h : Home) : Home :=
  if effectiveBias (pref prev) =? effectiveBias (pref h) then h
  else setWeightRef (effectiveBias (pref h)) h.

Definition debounceDelay : Z := if USE_DEMO_SIGNALS then 0 else DEBOUNCE_MS.

Definition RecStatus_eqb (a b : RecStatus) : bool :=
  match a, b with
  | idle, idle | loading, loading | error, error => true
  | _, _ => false
  end.

(** The render after a task: [prev] is the previous render, [h] the state
    being committed.  The debounce effect depends on [effectiveBias] and
    on [runInference], which is new exactly when [effectiveBias] or
    [recStatus] changed; when it runs, the old timeout is cleared and the
    new one holds the [runInference] of this render. *)
Definition render (prev : Page) (h : Home) : Page :=
  let h := h |> walletRefEffect (home prev) |> weightRefEffect (home prev) in
  if (effectiveBias (pref (home prev)) =? effectiveBias (pref h))
     && RecStatus_eqb (recStatus (shown (home prev))) (recStatus (shown h))
  then {| home := h; armed_status := armed_status prev |}
  else {| home := setDebounce
                    (Some {| due := clock (env h) + debounceDelay;
                             captured_bias := effectiveBias (pref h) |}) h;
          armed_status := recStatus (shown h) |}.

Definition mount (t0 : Z) : Page :=
  let bias := snapWeight DEMO_WEIGHT in
  {| home :=
       {| pref := {| focus := price; weight := DEMO_WEIGHT;
                     effectiveBias := bias; wallet := "" |};
          shown := {| recStatus := idle; recommendations := [];
                      clusterInsight := None; modelMessage := None;
                      lastRunAt := None; narrativeCopy := DEFAULT_NARRATIVE |};
          refs := {| inferenceController := None; walletRef := "";
                     weightRef := bias |};
          env := {| clock := t0; controllers := [];
                    debounce := Some {| due := t0 + debounceDelay;
                                        captured_bias := bias |};
                    fetches := []; inflight := [] |} |};
     armed_status := idle |}.

(** One task of the event loop and the render it causes.  The button of
    the panel calls [onRunSignal(true)]. *)
Definition handle (ev : Event) (p : Page) : Page :=
  let h := home p in
  match ev with
  | SliderInput value => render p (handleSliderInput value h)
  | FocusChange mode => render p (handleFocusChange mode h)
  | WalletInput value => render p (setWallet value h)
  | RunSignal => render p (handleRunSignal true h)
  | Settled c o =>
      if bool_decide (c ∈ inflight (env h)) then
        render p
          (resume (delivered c o h)
             (setInflight (filter (fun i => i ≠ c) (inflight (env h))) h))
      else p
  | Unmount =>
      {| home := h |> abortCurrent |> setDebounce None;
         armed_status := armed_status p |}
  end.

(** The pending timeout fires and calls the [runInference] it holds. *)
Definition fire (tm : Timeout) (p : Page) : Page :=
  let h := home p |> setClock (Z.max (clock (env (home p))) (due tm))
                  |> setDebounce None in
  render {| home := h; armed_status := armed_status p |}
    (runInference (captured_bias tm) (armed_status p)
       {| trigger := if USE_DEMO_SIGNALS then Manual else Auto;
          bias := Some (captured_bias tm);
          includeWallet := false |} h).

Definition advance (t : Z) (p : Page) : Page :=
  let p :=
    match debounce (env (home p)) with
    | Some tm => if due tm <=? t then fire tm p else p
    | None => p
    end in
  {| home := setClock (Z.max (clock (env (home p))) t) (home p);
     armed_status := armed_status p |}.

Definition step (p : Page) (te : Z * Event) : Page :=
  handle (snd te) (advance (fst te) p).

Definition run (p : Page) (trace : list (Z * Event)) : Page :=
  fold_left step trace p.

Inductive reachable : Page -> Prop :=
| reach_mount (t0 : Z) : reachable (mount t0)
| reach_handle (ev : Event) (p : Page) :
    reachable p -> reachable (handle ev p)
| reach_advance (t : Z) (p : Page) :
    reachable p -> reachable (advance t p).

(** The wallet ref mirrors the wallet cell, a pending timeout holds the
    bias and the status of the current state, and with demo signals
    nothing is ever sent, the status stays Idle and no message is set. *)
Record coherent (p : Page) : Prop := {
  coherent_wallet : walletRef (refs (home p)) = wallet (pref (home p));
  coherent_timeout :
    forall tm, debounce (env (home p)) = Some tm ->
               captured_bias tm = effectiveBias (pref (home p)) /\
               armed_status p = recStatus (shown (home p));
  coherent_demo :
    USE_DEMO_SIGNALS = true ->
    fetches (env (home p)) = [] /\ inflight (env (home p)) = [] /\
    recStatus (shown (home p)) = idle /\ modelMessage (shown (home p)) = None;
}.

End PanelPage.

End Panel.

Section Page.

(** [NEXT_PUBLIC_DEMO_SIGNALS] and [NEXT_PUBLIC_DEMO_WEIGHT], read once
    when the module loads. *)
Variable USE_DEMO_SIGNALS : bool.
Variable DEMO_WEIGHT : Z.

(** [new Date(ms).toISOString()] *)
Variable toISOString : Z -> string.

(** [String.prototype.trim] *)
Variable trim : string -> string.

(** *** [runInference], up to the awaited [fetch]

    [weightRef.current ?? weight] is [weightRef.current]: the ref always
    holds a number. *)
Definition runInference (args : RunArgs) (h : Home) : Home :=
  let effectiveBias :=
    match bias args with
    | Some b => b
    | None => weightRef (refs h)
    end in
  let '(priceWeight, sentimentWeight) := toRequestWeights effectiveBias in
  let hint := trim (walletRef (refs h)) in
  let payload := {|
    Request.price_weight := priceWeight;
    Request.sentiment_weight := sentimentWeight;
    Request.wallet :=
      if includeWallet args && (0 <? String.length hint)%nat
      then Some hint else None;
  |} in
  if USE_DEMO_SIGNALS then
    h |> setRecommendations DEMO_RECOMMENDATIONS
      |> setClusterInsight (Some DEMO_CLUSTER)
      |> setModelMessage (Some DEMO_MESSAGE)
      |> setLastRunAt (Some (toISOString (clock (env h))))
      |> setNarrativeCopy DEMO_NARRATIVE
      |> setRecStatus idle
  else
    let '(controller, h) := newAbortController (abortCurrent h) in
    h |> setInferenceController (Some controller)
      |> setRecStatus loading
      |> setModelMessage
           (Some match trigger args with
                 | Auto => AUTO_MESSAGE
                 | Manual => MANUAL_MESSAGE
                 end)
      |> fetch payload controller.

(** *** [runInference], from the awaited [fetch] on

    The [try] block after the [await] either reaches the decoded body or
    throws: on a rejected [fetch], on a status outside 2xx
    ([throw new Error(...)]), and on a body that does not decode. *)
Definition awaited (o : Settlement) : option Response.t :=
  match o with
  | Rejected => None
  | Responded status json => if response_ok status then json else None
  end.

(** The six setters after [if (controller.signal.aborted) return;] in the
    [try] block. *)
Definition applyResponse (r : Response.t) (h : Home) : Home :=
  h |> setRecommendations (default [] (Response.recommendations r))
    |> setClusterInsight (Response.cluster r)
    |> setModelMessage (Response.message r)
    |> setLastRunAt
         (Some (default (toISOString (clock (env h))) (Response.generated_at r)))
    |> setNarrativeCopy (default DEFAULT_NARRATIVE (Response.narrative r))
    |> setRecStatus idle.

(** The six setters after [if (controller.signal.aborted) return;] in the
    [catch] block. *)
Definition applyFallback (h : Home) : Home :=
  h |> setRecStatus error
    |> setRecommendations DEMO_RECOMMENDATIONS
    |> setClusterInsight (Some DEMO_CLUSTER)
    |> setModelMessage (Some FALLBACK_MESSAGE)
    |> setLastRunAt (Some (toISOString (clock (env h))))
    |> setNarrativeCopy DEFAULT_NARRATIVE.

(** The continuation of the invocation that created [controller]. *)
Definition resume (controller : nat) (o : Settlement) (h : Home) : Home :=
  match awaited o with
  | Some r => if aborted controller h then h else applyResponse r h
  | None => if aborted controller h then h else applyFallback h
  end.

(** *** Event handlers *)

Definition handleFocusChange (mode : FocusMode) (h : Home) : Home :=
  let nextWeight := match mode with price => 75 | sentiment => 25 end in
  h |> setFocus mode
    |> setWeight nextWeight
    |> setEffectiveBias (snapWeight nextWeight).

Definition handleWeightChange (value : Z) (h : Home) : Home :=
  let snapped := snapWeight value in
  h |> setWeight value
    |> setFocus (if 50 <=? snapped then price else sentiment)
    |> setEffectiveBias snapped.

Definition handleWalletChange (value : string) (h : Home) : Home :=
  setWallet value h.

Definition handleRunSignal (h : Home) : Home :=
  runInference {| trigger := Manual; bias := None; includeWallet := true |} h.

(** *** Effects

    Each effect runs after a render in which one of its dependencies
    differs from the previous render; [prev] is the previous render and
    [h] the one being committed. *)

(** [useEffect(() => { walletRef.current = wallet }, [wallet])] *)
Definition walletRefEffect (prev h : Home) : Home :=
  if String.eqb (wallet (pref prev)) (wallet (pref h)) then h
  else setWalletRef (wallet (pref h)) h.

(** [useEffect(() => { weightRef.current = effectiveBias }, [effectiveBias])] *)
Definition weightRefEffect (prev h : Home) : Home :=
  if effectiveBias (pref prev) =? effectiveBias (pref h) then h
  else setWeightRef (effectiveBias (pref h)) h.

(** The delay handed to [setTimeout]. *)
Definition debounceDelay : Z := if USE_DEMO_SIGNALS then 0 else DEBOUNCE_MS.

(** The debounce effect, with dependencies [[effectiveBias, runInference]].
    [runInference] is a [useCallback] over [[weight]], so it is a new
    function exactly when [weight] changed.  The cleanup of the previous
    run clears its timeout, then a new one is set; its callback closes
    over the [effectiveBias] of this render. *)
Definition debounceEffect (prev h : Home) : Home :=
  if (effectiveBias (pref prev) =? effectiveBias (pref h))
     && (weight (pref prev) =? weight (pref h))
  then h
  else setDebounce (Some {| due := clock (env h) + debounceDelay;
                            captured_bias := effectiveBias (pref h) |}) h.

Definition useEffects (prev h : Home) : Home :=
  h |> walletRefEffect prev |> weightRefEffect prev |> debounceEffect prev.

(** The callback of the debounce timeout. *)
Definition debounceCallback (tm : Timeout) (h : Home) : Home :=
  runInference {| trigger := if USE_DEMO_SIGNALS then Manual else Auto;
                  bias := Some (captured_bias tm);
                  includeWallet := false |} h.

(** *** Mounting and unmounting *)

(** The first render at time [t0] and the effects that follow it. *)
Definition mount (t0 : Z) : Home :=
  let bias := snapWeight DEMO_WEIGHT in
  {| pref := {| focus := price; weight := DEMO_WEIGHT;
                effectiveBias := bias; wallet := "" |};
     shown := {| recStatus := idle; recommendations := [];
                 clusterInsight := None; modelMessage := None;
                 lastRunAt := None; narrativeCopy := DEFAULT_NARRATIVE |};
     refs := {| inferenceController := None; walletRef := "";
                weightRef := bias |};
     env := {| clock := t0; controllers := [];
               debounce := Some {| due := t0 + debounceDelay;
                                   captured_bias := bias |};
               fetches := []; inflight := [] |} |}.

(** The cleanups that run when the component goes away: the current
    controller is aborted and the pending timeout cleared.  Nothing is
    delivered to a component after that; the event loop below does not
    enforce it, and nothing proved about it relies on it. *)
Definition unmount (h : Home) : Home :=
  h |> abortCurrent |> setDebounce None.

(** ** The event loop *)

Inductive Event :=
| SliderInput (value : Z)
| FocusChange (mode : FocusMode)
| WalletInput (value : string)
| RunSignal
| Settled (controller : nat) (o : Settlement)
| Unmount.

(** One task of the event loop, followed by the render it causes.  A call
    settles once: [Settled c o] is the settlement of a call that is in
    flight, and takes it out of the calls in flight. *)
Definition handle (ev : Event) (h : Home) : Home :=
  match ev with
  | SliderInput value => useEffects h (handleWeightChange value h)
  | FocusChange mode => useEffects h (handleFocusChange mode h)
  | WalletInput value => useEffects h (handleWalletChange value h)
  | RunSignal => useEffects h (handleRunSignal h)
  | Settled c o =>
      if bool_decide (c ∈ inflight (env h)) then
        useEffects h
          (resume c o (setInflight (filter (fun i => i ≠ c) (inflight (env h))) h))
      else h
  | Unmount => unmount h
  end.

(** The pending timeout fires: the clock has reached its due time, the
    timeout is spent, and its callback runs. *)
Definition fire (tm : Timeout) (h : Home) : Home :=
  let h := h |> setClock (Z.max (clock (env h)) (due tm)) |> setDebounce None in
  useEffects h (debounceCallback tm h).

(** Time passes until [t]: a timeout due by then fires on the way. *)
Definition advance (t : Z) (h : Home) : Home :=
  let h :=
    match debounce (env h) with
    | Some tm => if due tm <=? t then fire tm h else h
    | None => h
    end in
  setClock (Z.max (clock (env h)) t) h.

(** An event that happens at time [t]. *)
Definition step (h : Home) (te : Z * Event) : Home :=
  handle (snd te) (advance (fst te) h).

Definition run (h : Home) (trace : list (Z * Event)) : Home :=
  fold_left step trace h.

(** ** Reachable states and what holds in all of them *)

(** The states the component can be in: it was mounted at some time, and
    since then events were handled and time passed. *)
Inductive reachable : Home -> Prop :=
| reach_mount (t0 : Z) : reachable (mount t0)
| reach_handle (ev : Event) (h : Home) :
    reachable h -> reachable (handle ev h)
| reach_advance (t : Z) (h : Home) :
    reachable h -> reachable (advance t h).

(** A bias that came out of [snapWeight]. *)
Definition snapped (b : Z) : Prop := b = 50 \/ b = 60.

(** The two weight mixes a snapped bias gives rise to. *)
Definition snappedMix (r : Request.t) : Prop :=
  (Request.price_weight r == 0.5 /\ Request.sentiment_weight r == 0.5)%Q \/
  (Request.price_weight r == 0.6 /\ Request.sentiment_weight r == 0.4)%Q.

(** Every place a bias is kept holds a snapped one, and every request
    sent so far carries one of the two mixes. *)
Record biasInvariant (h : Home) : Prop := {
  bias_state : snapped (effectiveBias (pref h));
  bias_ref : snapped (weightRef (refs h));
  bias_timer :
    forall tm, debounce (env h) = Some tm -> snapped (captured_bias tm);
  bias_wire : Forall (fun f => snappedMix (body f)) (fetches (env h));
}.

(** The controller the component holds exists, every other controller has
    been aborted, only calls with a controller are in flight, and in demo
    mode there are no controllers and no calls at all. *)
Record controllerInvariant (h : Home) : Prop := {
  current_allocated :
    forall c, inferenceController (refs h) = Some c ->
              (c < length (controllers (env h)))%nat;
  others_aborted :
    forall c, (c < length (controllers (env h)))%nat ->
              inferenceController (refs h) <> Some c ->
              aborted c h = true;
  inflight_allocated :
    forall c, c ∈ inflight (env h) -> (c < length (controllers (env h)))%nat;
  demo_quiet :
    USE_DEMO_SIGNALS = true ->
    controllers (env h) = [] /\ fetches (env h) = [] /\
    inflight (env h) = [] /\ recStatus (shown h) = idle;
}.


(** The display holds the demo snapshot and the status is idle. *)
Definition showsDemoSnapshot (h : Home) : Prop :=
  recommendations (shown h) = DEMO_RECOMMENDATIONS /\
  clusterInsight (shown h) = Some DEMO_CLUSTER /\
  narrativeCopy (shown h) = DEMO_NARRATIVE /\
  recStatus (shown h) = idle.

(** The events that move the bias: a slider move and a focus toggle. *)
Definition biasEvent (ev : Event) : Prop :=
  match ev with
  | SliderInput _ | FocusChange _ => True
  | _ => False
  end.


(** ** More of what holds in every reachable state *)

(** What the page passes to the button of [WalletSignalCard]. *)
Definition runSignalDisabled (h : Home) : bool :=
  WalletSignalCard.runDisabled (recStatus (shown h)) USE_DEMO_SIGNALS.

(** The refs mirror the cells they follow, the bias is the snapped weight,
    a pending timeout carries the bias of the state and is due within one
    delay, and the sentiment focus goes with the weight of its toggle. *)
Record mirrorInvariant (h : Home) : Prop := {
  mirror_wallet : walletRef (refs h) = wallet (pref h);
  mirror_weight : weightRef (refs h) = effectiveBias (pref h);
  mirror_bias : effectiveBias (pref h) = snapWeight (weight (pref h));
  mirror_timeout :
    forall tm, debounce (env h) = Some tm ->
               captured_bias tm = effectiveBias (pref h) /\
               due tm <= clock (env h) + debounceDelay;
  mirror_focus : focus (pref h) = sentiment -> weight (pref h) = 25;
}.

(** The status agrees with what is in flight and on display. *)
Record statusInvariant (h : Home) : Prop := {
  live_call_loading :
    forall c, c ∈ inflight (env h) -> aborted c h = false ->
              recStatus (shown h) = loading;
  error_shows_fallback :
    recStatus (shown h) = error ->
    recommendations (shown h) = DEMO_RECOMMENDATIONS /\
    clusterInsight (shown h) = Some DEMO_CLUSTER /\
    modelMessage (shown h) = Some FALLBACK_MESSAGE /\
    narrativeCopy (shown h) = DEFAULT_NARRATIVE;
  loading_message :
    recStatus (shown h) = loading ->
    modelMessage (shown h) = Some AUTO_MESSAGE \/
    modelMessage (shown h) = Some MANUAL_MESSAGE;
}.

(** A trace in which calls settle and time passes, and nothing else
    happens. *)
Definition onlySettlements (trace : list (Z * Event)) : Prop :=
  Forall (fun te => match snd te with Settled _ _ => True | _ => False end)
         trace.

(** * Proofs *)

(** ** The heap of controllers *)

Lemma aborted_allocated (c : nat) (h : Home) :
  aborted c h = true -> (c < length (controllers (env h)))%nat.
Proof.
  unfold aborted. intros Hc.
  destruct (controllers (env h) !! c) as [b|] eqn:E; [|discriminate].
  eapply lookup_lt_Some; eauto.
Qed.

Lemma aborted_abort_same (c : nat) (h : Home) :
  (c < length (controllers (env h)))%nat -> aborted c (abort c h) = true.
Proof.
  intros Hc. unfold aborted, abort. cbn.
  now rewrite list_lookup_insert_eq.
Qed.

Lemma aborted_abort_other (c c' : nat) (h : Home) :
  c <> c' -> aborted c (abort c' h) = aborted c h.
Proof.
  intros Hne. unfold aborted, abort. cbn.
  now rewrite list_lookup_insert_ne.
Qed.

Lemma aborted_abort_mono (c c' : nat) (h : Home) :
  aborted c h = true -> aborted c (abort c' h) = true.
Proof.
  intros Hc. destruct (decide (c = c')) as [->|Hne].
  - apply aborted_abort_same. now apply aborted_allocated.
  - now rewrite aborted_abort_other.
Qed.

Lemma aborted_abortCurrent_mono (c : nat) (h : Home) :
  aborted c h = true -> aborted c (abortCurrent h) = true.
Proof.
  unfold abortCurrent. destruct (inferenceController (refs h)); [|easy].
  apply aborted_abort_mono.
Qed.

Lemma length_abortCurrent (h : Home) :
  length (controllers (env (abortCurrent h))) = length (controllers (env h)).
Proof.
  unfold abortCurrent, abort.
  destruct (inferenceController (refs h)); cbn; [|easy].
  apply length_insert.
Qed.

Lemma abortCurrent_refs (h : Home) : refs (abortCurrent h) = refs h.
Proof. unfold abortCurrent. now destruct (inferenceController (refs h)). Qed.

Lemma abortCurrent_shown (h : Home) : shown (abortCurrent h) = shown h.
Proof. unfold abortCurrent. now destruct (inferenceController (refs h)). Qed.

Lemma abortCurrent_pref (h : Home) : pref (abortCurrent h) = pref h.
Proof. unfold abortCurrent. now destruct (inferenceController (refs h)). Qed.

Lemma abortCurrent_inflight (h : Home) :
  inflight (env (abortCurrent h)) = inflight (env h).
Proof. unfold abortCurrent. now destruct (inferenceController (refs h)). Qed.

Lemma abortCurrent_fetches (h : Home) :
  fetches (env (abortCurrent h)) = fetches (env h).
Proof. unfold abortCurrent. now destruct (inferenceController (refs h)). Qed.

Lemma abortCurrent_debounce (h : Home) :
  debounce (env (abortCurrent h)) = debounce (env h).
Proof. unfold abortCurrent. now destruct (inferenceController (refs h)). Qed.

Lemma aborted_alloc_old (c : nat) (h : Home) :
  (c < length (controllers (env h)))%nat ->
  aborted c (snd (newAbortController h)) = aborted c h.
Proof.
  intros Hc. unfold aborted, newAbortController. cbn.
  now rewrite lookup_app_l.
Qed.

Lemma aborted_alloc_new (h : Home) :
  aborted (fst (newAbortController h)) (snd (newAbortController h)) = false.
Proof.
  unfold aborted, newAbortController. cbn.
  rewrite lookup_app_r by lia. now rewrite Nat.sub_diag.
Qed.

Lemma aborted_ext (c : nat) (h h' : Home) :
  controllers (env h) = controllers (env h') -> aborted c h = aborted c h'.
Proof. unfold aborted. now intros ->. Qed.

(** ** What each piece of the component touches *)

Ltac split_ifs :=
  repeat match goal with
         | |- context [if ?b then _ else _] => destruct b eqn:?
         end.

Lemma useEffects_pref (prev h : Home) : pref (useEffects prev h) = pref h.
Proof. unfold useEffects, walletRefEffect, weightRefEffect, debounceEffect.
       split_ifs; reflexivity. Qed.

Lemma useEffects_shown (prev h : Home) : shown (useEffects prev h) = shown h.
Proof. unfold useEffects, walletRefEffect, weightRefEffect, debounceEffect.
       split_ifs; reflexivity. Qed.

Lemma useEffects_current (prev h : Home) :
  inferenceController (refs (useEffects prev h)) = inferenceController (refs h).
Proof. unfold useEffects, walletRefEffect, weightRefEffect, debounceEffect.
       split_ifs; reflexivity. Qed.

Lemma useEffects_controllers (prev h : Home) :
  controllers (env (useEffects prev h)) = controllers (env h).
Proof. unfold useEffects, walletRefEffect, weightRefEffect, debounceEffect.
       split_ifs; reflexivity. Qed.

Lemma useEffects_fetches (prev h : Home) :
  fetches (env (useEffects prev h)) = fetches (env h).
Proof. unfold useEffects, walletRefEffect, weightRefEffect, debounceEffect.
       split_ifs; reflexivity. Qed.

Lemma useEffects_inflight (prev h : Home) :
  inflight (env (useEffects prev h)) = inflight (env h).
Proof. unfold useEffects, walletRefEffect, weightRefEffect, debounceEffect.
       split_ifs; reflexivity. Qed.

Lemma useEffects_clock (prev h : Home) :
  clock (env (useEffects prev h)) = clock (env h).
Proof. unfold useEffects, walletRefEffect, weightRefEffect, debounceEffect.
       split_ifs; reflexivity. Qed.

Lemma useEffects_aborted (c : nat) (prev h : Home) :
  aborted c (useEffects prev h) = aborted c h.
Proof. apply aborted_ext, useEffects_controllers. Qed.

(** The debounce effect either leaves the timeout alone (no dependency
    changed) or replaces it by one that is due a full delay from now and
    carries the bias of this render. *)
Lemma useEffects_debounce (prev h : Home) :
  debounce (env (useEffects prev h)) =
  if (effectiveBias (pref prev) =? effectiveBias (pref h))
     && (weight (pref prev) =? weight (pref h))
  then debounce (env h)
  else Some {| due := clock (env h) + debounceDelay;
               captured_bias := effectiveBias (pref h) |}.
Proof. unfold useEffects, walletRefEffect, weightRefEffect, debounceEffect.
       split_ifs; try reflexivity; cbn in *; congruence. Qed.

Lemma useEffects_weightRef (prev h : Home) :
  weightRef (refs (useEffects prev h)) =
  if effectiveBias (pref prev) =? effectiveBias (pref h)
  then weightRef (refs h) else effectiveBias (pref h).
Proof. unfold useEffects, walletRefEffect, weightRefEffect, debounceEffect.
       split_ifs; try reflexivity; cbn in *; congruence. Qed.

(** With no dependency changed, no effect runs. *)
Lemma useEffects_same_pref (prev h : Home) :
  pref h = pref prev -> useEffects prev h = h.
Proof.
  intros E. unfold useEffects.
  assert (E1 : walletRefEffect prev h = h).
  { unfold walletRefEffect. now rewrite E, String.eqb_refl. }
  rewrite E1.
  assert (E2 : weightRefEffect prev h = h).
  { unfold weightRefEffect. now rewrite E, Z.eqb_refl. }
  rewrite E2.
  unfold debounceEffect. now rewrite E, !Z.eqb_refl.
Qed.

(** [runInference] in each of its two modes. *)
Lemma runInference_demo (args : RunArgs) (h : Home) :
  USE_DEMO_SIGNALS = true ->
  runInference args h =
  h |> setRecommendations DEMO_RECOMMENDATIONS
    |> setClusterInsight (Some DEMO_CLUSTER)
    |> setModelMessage (Some DEMO_MESSAGE)
    |> setLastRunAt (Some (toISOString (clock (env h))))
    |> setNarrativeCopy DEMO_NARRATIVE
    |> setRecStatus idle.
Proof. intros E. unfold runInference, toRequestWeights. now rewrite E. Qed.

Lemma runInference_live (args : RunArgs) (h : Home) :
  USE_DEMO_SIGNALS = false ->
  runInference args h =
  let effectiveBias := default (weightRef (refs h)) (bias args) in
  let hint := trim (walletRef (refs h)) in
  let payload := {|
    Request.price_weight := fst (toRequestWeights effectiveBias);
    Request.sentiment_weight := snd (toRequestWeights effectiveBias);
    Request.wallet :=
      if includeWallet args && (0 <? String.length hint)%nat
      then Some hint else None |} in
  let controller := length (controllers (env h)) in
  snd (newAbortController (abortCurrent h))
    |> setInferenceController (Some controller)
    |> setRecStatus loading
    |> setModelMessage
         (Some match trigger args with
               | Auto => AUTO_MESSAGE
               | Manual => MANUAL_MESSAGE
               end)
    |> fetch payload controller.
Proof.
  intros E. unfold runInference, toRequestWeights, newAbortController.
  rewrite E, length_abortCurrent. now destruct (bias args).
Qed.

Lemma runInference_pref (args : RunArgs) (h : Home) :
  pref (runInference args h) = pref h.
Proof.
  destruct USE_DEMO_SIGNALS eqn:E.
  - now rewrite runInference_demo.
  - rewrite runInference_live by easy. cbn. unfold abortCurrent.
    now destruct (inferenceController (refs h)).
Qed.

Lemma runInference_debounce (args : RunArgs) (h : Home) :
  debounce (env (runInference args h)) = debounce (env h).
Proof.
  destruct USE_DEMO_SIGNALS eqn:E.
  - now rewrite runInference_demo.
  - rewrite runInference_live by easy. cbn. unfold abortCurrent.
    now destruct (inferenceController (refs h)).
Qed.

Lemma runInference_clock (args : RunArgs) (h : Home) :
  clock (env (runInference args h)) = clock (env h).
Proof.
  destruct USE_DEMO_SIGNALS eqn:E.
  - now rewrite runInference_demo.
  - rewrite runInference_live by easy. cbn. unfold abortCurrent.
    now destruct (inferenceController (refs h)).
Qed.

Lemma runInference_weightRef (args : RunArgs) (h : Home) :
  weightRef (refs (runInference args h)) = weightRef (refs h).
Proof.
  destruct USE_DEMO_SIGNALS eqn:E.
  - now rewrite runInference_demo.
  - rewrite runInference_live by easy. cbn. unfold abortCurrent.
    now destruct (inferenceController (refs h)).
Qed.

(** A live run allocates the next controller and makes it the current
    one. *)
Lemma runInference_live_current (args : RunArgs) (h : Home) :
  USE_DEMO_SIGNALS = false ->
  inferenceController (refs (runInference args h))
  = Some (length (controllers (env h))).
Proof. intros E. now rewrite runInference_live. Qed.

Lemma runInference_live_length (args : RunArgs) (h : Home) :
  USE_DEMO_SIGNALS = false ->
  length (controllers (env (runInference args h)))
  = S (length (controllers (env h))).
Proof.
  intros E. rewrite runInference_live by easy. cbn.
  rewrite length_app, length_abortCurrent. cbn. lia.
Qed.

Lemma runInference_live_inflight (args : RunArgs) (h : Home) :
  USE_DEMO_SIGNALS = false ->
  inflight (env (runInference args h))
  = (inflight (env h) ++ [length (controllers (env h))])%list.
Proof.
  intros E. rewrite runInference_live by easy. cbn. unfold abortCurrent.
  now destruct (inferenceController (refs h)).
Qed.

Lemma runInference_live_shown (args : RunArgs) (h : Home) :
  USE_DEMO_SIGNALS = false ->
  shown (runInference args h)
  = shown (h |> setRecStatus loading
             |> setModelMessage
                  (Some match trigger args with
                        | Auto => AUTO_MESSAGE
                        | Manual => MANUAL_MESSAGE
                        end)).
Proof.
  intros E. rewrite runInference_live by easy. cbn. unfold abortCurrent.
  now destruct (inferenceController (refs h)).
Qed.

(** A live run leaves every earlier controller aborted that was aborted
    before, aborts the one that was current, and starts with its own
    controller not aborted. *)
Lemma runInference_aborted_mono (args : RunArgs) (c : nat) (h : Home) :
  aborted c h = true -> aborted c (runInference args h) = true.
Proof.
  intros Hc. destruct USE_DEMO_SIGNALS eqn:E.
  - now rewrite runInference_demo.
  - rewrite runInference_live by easy.
    erewrite aborted_ext with (h' := snd (newAbortController (abortCurrent h)))
      by reflexivity.
    rewrite aborted_alloc_old.
    + now apply aborted_abortCurrent_mono.
    + rewrite length_abortCurrent. now apply aborted_allocated.
Qed.

Lemma runInference_aborts_current (args : RunArgs) (c : nat) (h : Home) :
  USE_DEMO_SIGNALS = false ->
  inferenceController (refs h) = Some c ->
  (c < length (controllers (env h)))%nat ->
  aborted c (runInference args h) = true.
Proof.
  intros E Hcur Hlt. rewrite runInference_live by easy.
  erewrite aborted_ext with (h' := snd (newAbortController (abortCurrent h)))
    by reflexivity.
  rewrite aborted_alloc_old by now rewrite length_abortCurrent.
  unfold abortCurrent. rewrite Hcur. now apply aborted_abort_same.
Qed.

Lemma runInference_fresh (args : RunArgs) (h : Home) :
  USE_DEMO_SIGNALS = false ->
  aborted (length (controllers (env h))) (runInference args h) = false.
Proof.
  intros E. rewrite runInference_live by easy.
  erewrite aborted_ext with (h' := snd (newAbortController (abortCurrent h)))
    by reflexivity.
  rewrite <- (length_abortCurrent h). apply aborted_alloc_new.
Qed.

(** The continuation only ever writes the display cells. *)
Lemma resume_pref (c : nat) (o : Settlement) (h : Home) :
  pref (resume c o h) = pref h.
Proof. unfold resume. destruct (awaited o), (aborted c h); reflexivity. Qed.

Lemma resume_refs (c : nat) (o : Settlement) (h : Home) :
  refs (resume c o h) = refs h.
Proof. unfold resume. destruct (awaited o), (aborted c h); reflexivity. Qed.

Lemma resume_env (c : nat) (o : Settlement) (h : Home) :
  env (resume c o h) = env h.
Proof. unfold resume. destruct (awaited o), (aborted c h); reflexivity. Qed.

(** Both guards [if (controller.signal.aborted) return;]. *)
Lemma resume_aborted (c : nat) (o : Settlement) (h : Home) :
  aborted c h = true -> resume c o h = h.
Proof. intros Hc. unfold resume. rewrite Hc. now destruct (awaited o). Qed.

Lemma resume_success (c : nat) (status : Z) (r : Response.t) (h : Home) :
  200 <= status <= 299 -> aborted c h = false ->
  resume c (Responded status (Some r)) h = applyResponse r h.
Proof.
  intros Hs Hc. unfold resume, awaited, response_ok.
  replace (200 <=? status) with true by lia.
  replace (status <=? 299) with true by lia.
  cbn. now rewrite Hc.
Qed.



(** Taking a call out of the calls in flight touches nothing else. *)
Lemma aborted_setInflight (c : nat) (l : list nat) (h : Home) :
  aborted c (setInflight l h) = aborted c h.
Proof. reflexivity. Qed.

(** The settlement of a call whose controller is aborted changes no cell
    of the component. *)
Lemma handle_settled_aborted (c : nat) (o : Settlement) (h : Home) :
  aborted c h = true ->
  pref (handle (Settled c o) h) = pref h /\
  shown (handle (Settled c o) h) = shown h /\
  refs (handle (Settled c o) h) = refs h.
Proof.
  intros Hc. cbn. destruct (bool_decide _); [|easy].
  rewrite resume_aborted by now rewrite aborted_setInflight.
  rewrite useEffects_same_pref by reflexivity.
  easy.
Qed.

(** ** Once aborted, always aborted *)

Lemma unmount_aborted_mono (c : nat) (h : Home) :
  aborted c h = true -> aborted c (unmount h) = true.
Proof.
  intros Hc. unfold unmount.
  erewrite aborted_ext with (h' := abortCurrent h) by reflexivity.
  now apply aborted_abortCurrent_mono.
Qed.

Lemma handle_aborted_mono (ev : Event) (c : nat) (h : Home) :
  aborted c h = true -> aborted c (handle ev h) = true.
Proof.
  intros Hc. destruct ev; cbn [handle].
  - now rewrite useEffects_aborted.
  - now rewrite useEffects_aborted.
  - now rewrite useEffects_aborted.
  - rewrite useEffects_aborted. now apply runInference_aborted_mono.
  - destruct (bool_decide _); [|easy].
    rewrite useEffects_aborted.
    erewrite aborted_ext; [exact Hc|]. now rewrite resume_env.
  - now apply unmount_aborted_mono.
Qed.

Lemma fire_aborted_mono (tm : Timeout) (c : nat) (h : Home) :
  aborted c h = true -> aborted c (fire tm h) = true.
Proof.
  intros Hc. unfold fire, debounceCallback.
  rewrite useEffects_aborted. now apply runInference_aborted_mono.
Qed.

Lemma advance_aborted_mono (t : Z) (c : nat) (h : Home) :
  aborted c h = true -> aborted c (advance t h) = true.
Proof.
  intros Hc. unfold advance.
  erewrite aborted_ext by reflexivity.
  destruct (debounce (env h)) as [tm|]; [|exact Hc].
  destruct (due tm <=? t); [|exact Hc].
  now apply fire_aborted_mono.
Qed.

Lemma run_aborted_mono (trace : list (Z * Event)) (c : nat) (h : Home) :
  aborted c h = true -> aborted c (run h trace) = true.
Proof.
  revert h. induction trace as [|te trace IH]; intros h Hc; [exact Hc|].
  cbn. apply IH. unfold step.
  now apply handle_aborted_mono, advance_aborted_mono.
Qed.

(** ** The controller invariant *)

Lemma controllerInvariant_ext (h h' : Home) :
  inferenceController (refs h') = inferenceController (refs h) ->
  controllers (env h') = controllers (env h) ->
  inflight (env h') = inflight (env h) ->
  fetches (env h') = fetches (env h) ->
  recStatus (shown h') = recStatus (shown h) ->
  controllerInvariant h -> controllerInvariant h'.
Proof.
  intros E1 E2 E3 E4 E5 [I1 I2 I3 I4].
  split; rewrite ?E1, ?E2, ?E3, ?E4, ?E5; try assumption.
  intros c Hlt Hne. rewrite (aborted_ext c h' h E2). now apply I2.
Qed.

Lemma controllerInvariant_mount (t0 : Z) : controllerInvariant (mount t0).
Proof.
  split; cbn.
  - discriminate.
  - lia.
  - intros c Hc. now apply elem_of_nil in Hc.
  - easy.
Qed.

Lemma controllerInvariant_useEffects (prev h : Home) :
  controllerInvariant h -> controllerInvariant (useEffects prev h).
Proof.
  apply controllerInvariant_ext.
  - apply useEffects_current.
  - apply useEffects_controllers.
  - apply useEffects_inflight.
  - apply useEffects_fetches.
  - now rewrite useEffects_shown.
Qed.

Lemma controllerInvariant_runInference (args : RunArgs) (h : Home) :
  controllerInvariant h -> controllerInvariant (runInference args h).
Proof.
  intros I. destruct USE_DEMO_SIGNALS eqn:E.
  - destruct I as [I1 I2 I3 I4]. destruct (I4 E) as (Q1 & Q2 & Q3 & Q4).
    rewrite runInference_demo by easy.
    split; cbn; try assumption. easy.
  - destruct I as [I1 I2 I3 I4]. split.
    + intros c. rewrite runInference_live_current, runInference_live_length
        by easy. intros [= <-]. lia.
    + intros c. rewrite runInference_live_current, runInference_live_length
        by easy. intros Hlt Hne.
      assert (Hc : (c < length (controllers (env h)))%nat).
      { destruct (decide (c = length (controllers (env h)))); [congruence|lia]. }
      destruct (decide (inferenceController (refs h) = Some c)) as [Hcur|Hcur].
      * now apply runInference_aborts_current.
      * apply runInference_aborted_mono. now apply I2.
    + intros c. rewrite runInference_live_inflight, runInference_live_length
        by easy. rewrite elem_of_app, list_elem_of_singleton.
      intros [Hc| ->]; [|lia]. apply I3 in Hc. lia.
    + congruence.
Qed.

Lemma controllerInvariant_unmount (h : Home) :
  controllerInvariant h -> controllerInvariant (unmount h).
Proof.
  intros [I1 I2 I3 I4]. unfold unmount. split; cbn.
  - rewrite abortCurrent_refs, length_abortCurrent. apply I1.
  - rewrite abortCurrent_refs, length_abortCurrent. intros c Hlt Hne.
    erewrite aborted_ext with (h' := abortCurrent h) by reflexivity.
    now apply aborted_abortCurrent_mono, I2.
  - rewrite abortCurrent_inflight, length_abortCurrent. apply I3.
  - intros E. destruct (I4 E) as (Q1 & Q2 & Q3 & Q4).
    rewrite abortCurrent_fetches, abortCurrent_inflight, abortCurrent_shown.
    repeat split; try assumption.
    apply nil_length_inv. now rewrite length_abortCurrent, Q1.
Qed.

Lemma controllerInvariant_handle (ev : Event) (h : Home) :
  controllerInvariant h -> controllerInvariant (handle ev h).
Proof.
  intros I. destruct ev; cbn [handle].
  - apply controllerInvariant_useEffects.
    revert I. now apply controllerInvariant_ext.
  - apply controllerInvariant_useEffects.
    revert I. now apply controllerInvariant_ext.
  - apply controllerInvariant_useEffects.
    revert I. now apply controllerInvariant_ext.
  - now apply controllerInvariant_useEffects, controllerInvariant_runInference.
  - destruct (bool_decide _) eqn:Hin; [|easy].
    apply bool_decide_eq_true in Hin.
    apply controllerInvariant_useEffects.
    destruct I as [I1 I2 I3 I4]. split.
    + now rewrite resume_refs, resume_env.
    + rewrite resume_refs, resume_env. intros c Hlt Hne.
      erewrite aborted_ext with (h' := h) by now rewrite resume_env.
      now apply I2.
    + rewrite resume_env. cbn. intros c Hc.
      apply list_elem_of_filter in Hc. now apply I3.
    + intros E. destruct (I4 E) as (Q1 & Q2 & Q3 & Q4).
      rewrite Q3 in Hin. now apply elem_of_nil in Hin.
  - now apply controllerInvariant_unmount.
Qed.

Lemma controllerInvariant_advance (t : Z) (h : Home) :
  controllerInvariant h -> controllerInvariant (advance t h).
Proof.
  intros I. unfold advance.
  eapply controllerInvariant_ext with
    (h := match debounce (env h) with
          | Some tm => if due tm <=? t then fire tm h else h
          | None => h
          end); try reflexivity.
  destruct (debounce (env h)) as [tm|]; [|easy].
  destruct (due tm <=? t); [|easy].
  unfold fire, debounceCallback.
  apply controllerInvariant_useEffects, controllerInvariant_runInference.
  revert I. now apply controllerInvariant_ext.
Qed.

Lemma reachable_controllerInvariant (h : Home) :
  reachable h -> controllerInvariant h.
Proof.
  induction 1.
  - apply controllerInvariant_mount.
  - now apply controllerInvariant_handle.
  - now apply controllerInvariant_advance.
Qed.

(** ** The bias invariant *)

Lemma snapWeight_snapped (value : Z) : snapped (snapWeight value).
Proof. unfold snapped, snapWeight. destruct (value <? 50); auto. Qed.

Lemma toRequestWeights_snapped (b : Z) (hint : option string) :
  snapped b ->
  snappedMix {| Request.price_weight := fst (toRequestWeights b);
                Request.sentiment_weight := snd (toRequestWeights b);
                Request.wallet := hint |}.
Proof.
  intros [-> | ->]; [left | right]; split; reflexivity.
Qed.

Lemma biasInvariant_mount (t0 : Z) : biasInvariant (mount t0).
Proof.
  split; cbn.
  - apply snapWeight_snapped.
  - apply snapWeight_snapped.
  - intros tm [= <-]. apply snapWeight_snapped.
  - constructor.
Qed.

Lemma biasInvariant_useEffects (prev h : Home) :
  biasInvariant h -> biasInvariant (useEffects prev h).
Proof.
  intros [I1 I2 I3 I4]. split.
  - now rewrite useEffects_pref.
  - rewrite useEffects_weightRef. now destruct (_ =? _).
  - rewrite useEffects_debounce. destruct (_ && _); [easy|].
    now intros tm [= <-].
  - now rewrite useEffects_fetches.
Qed.

Lemma biasInvariant_runInference (args : RunArgs) (h : Home) :
  biasInvariant h ->
  (forall b, bias args = Some b -> snapped b) ->
  biasInvariant (runInference args h).
Proof.
  intros [I1 I2 I3 I4] Hb. split.
  - now rewrite runInference_pref.
  - now rewrite runInference_weightRef.
  - now rewrite runInference_debounce.
  - destruct USE_DEMO_SIGNALS eqn:E.
    + now rewrite runInference_demo.
    + rewrite runInference_live by easy. cbn. rewrite abortCurrent_fetches.
      apply Forall_app. split; [easy|].
      constructor; [|constructor]. cbn.
      apply toRequestWeights_snapped.
      destruct (bias args) as [b|]; cbn; [now apply Hb | exact I2].
Qed.

Lemma biasInvariant_handle (ev : Event) (h : Home) :
  biasInvariant h -> biasInvariant (handle ev h).
Proof.
  intros I. destruct ev; cbn [handle].
  - apply biasInvariant_useEffects. destruct I as [I1 I2 I3 I4].
    split; try assumption. apply snapWeight_snapped.
  - apply biasInvariant_useEffects. destruct I as [I1 I2 I3 I4].
    split; try assumption. apply snapWeight_snapped.
  - apply biasInvariant_useEffects. now destruct I as [I1 I2 I3 I4].
  - apply biasInvariant_useEffects, biasInvariant_runInference; [easy|].
    discriminate.
  - destruct (bool_decide _); [|easy].
    apply biasInvariant_useEffects. destruct I as [I1 I2 I3 I4].
    split; rewrite ?resume_pref, ?resume_refs, ?resume_env; assumption.
  - destruct I as [I1 I2 I3 I4]. unfold unmount.
    split; cbn; rewrite ?abortCurrent_pref, ?abortCurrent_refs,
      ?abortCurrent_fetches; try assumption.
    discriminate.
Qed.

Lemma biasInvariant_advance (t : Z) (h : Home) :
  biasInvariant h -> biasInvariant (advance t h).
Proof.
  intros I. unfold advance.
  assert (I' : biasInvariant
                 match debounce (env h) with
                 | Some tm => if due tm <=? t then fire tm h else h
                 | None => h
                 end).
  { destruct (debounce (env h)) as [tm|] eqn:Htm; [|easy].
    destruct (due tm <=? t); [|easy].
    unfold fire, debounceCallback.
    apply biasInvariant_useEffects, biasInvariant_runInference.
    - destruct I as [I1 I2 I3 I4]. split; try assumption. discriminate.
    - intros b [= <-]. destruct I as [I1 I2 I3 I4]. now apply I3. }
  destruct I' as [I1 I2 I3 I4]. now split.
Qed.

Lemma reachable_biasInvariant (h : Home) : reachable h -> biasInvariant h.
Proof.
  induction 1.
  - apply biasInvariant_mount.
  - now apply biasInvariant_handle.
  - now apply biasInvariant_advance.
Qed.

Lemma run_reachable (h : Home) (trace : list (Z * Event)) :
  reachable h -> reachable (run h trace).
Proof.
  revert h. induction trace as [|[t ev] trace IH]; intros h Hh; [easy|].
  cbn. apply IH. unfold step. cbn.
  now apply reach_handle, reach_advance.
Qed.

(** * The properties of the specification *)

(** C4.  [snap] is a two-valued step function: it returns 50 for every raw
    weight from 0 to 49 and 60 for every raw weight from 50 to 100; in
    particular [snap 0 = 50], [snap 49 = 50], [snap 50 = 60] and
    [snap 100 = 60]. *)
Theorem snapWeight_step :
  (forall rawWeight, 0 <= rawWeight <= 49 -> snapWeight rawWeight = 50) /\
  (forall rawWeight, 50 <= rawWeight <= 100 -> snapWeight rawWeight = 60) /\
  snapWeight 0 = 50 /\ snapWeight 49 = 50 /\
  snapWeight 50 = 60 /\ snapWeight 100 = 60.
Proof.
  repeat split; try reflexivity; intros w Hw; unfold snapWeight.
  - replace (w <? 50) with true by lia. reflexivity.
  - replace (w <? 50) with false by lia. reflexivity.
Qed.





Lemma handle_settled_live (c : nat) (o : Settlement) (h : Home) :
  c ∈ inflight (env h) ->
  shown (handle (Settled c o) h) = shown (resume c o h).
Proof.
  intros Hin. cbn [handle].
  rewrite bool_decide_eq_true_2 by exact Hin.
  rewrite useEffects_shown. unfold resume.
  rewrite aborted_setInflight.
  destruct (awaited o), (aborted c h); reflexivity.
Qed.

(** C9.  When the call of the current controller comes back with a 2xx
    status and a decodable body, the body is projected key by key: absent
    recommendations become the empty list, an absent cluster stays absent,
    an absent narrative becomes the default narrative, an absent
    [generated_at] becomes the time of the projection; a key that is
    present is stored as it is.  Whatever keys are missing, the projection
    goes through and the status ends up idle. *)
Theorem projection_defaults
    (c : nat) (status : Z) (r : Response.t) (h : Home) :
  200 <= status <= 299 ->
  c ∈ inflight (env h) ->
  aborted c h = false ->
  let h' := handle (Settled c (Responded status (Some r))) h in
  (Response.recommendations r = None -> recommendations (shown h') = []) /\
  (forall l, Response.recommendations r = Some l ->
             recommendations (shown h') = l) /\
  clusterInsight (shown h') = Response.cluster r /\
  (Response.narrative r = None -> narrativeCopy (shown h') = DEFAULT_NARRATIVE) /\
  (forall n, Response.narrative r = Some n -> narrativeCopy (shown h') = n) /\
  (Response.generated_at r = None ->
   lastRunAt (shown h') = Some (toISOString (clock (env h)))) /\
  (forall g, Response.generated_at r = Some g ->
             lastRunAt (shown h') = Some g) /\
  modelMessage (shown h') = Response.message r /\
  recStatus (shown h') = idle.
Proof.
  intros Hs Hin Hc h'. subst h'.
  rewrite handle_settled_live by exact Hin.
  rewrite resume_success by assumption.
  unfold applyResponse. cbn.
  repeat split; try (intros E; now rewrite E); intros x E; now rewrite E.
Qed.



Lemma runInference_never_error (args : RunArgs) (h : Home) :
  recStatus (shown (runInference args h)) <> error.
Proof.
  destruct USE_DEMO_SIGNALS eqn:D.
  - now rewrite runInference_demo.
  - now rewrite runInference_live_shown.
Qed.

(** C7.  Cancelling a call never produces an Error transition and changes
    nothing beyond the call's completion being dropped.  The two places
    that cancel are a new run (it aborts the controller of the previous
    one) and the unmount cleanup: the first leaves the status Loading or
    Idle, the second leaves the display as it is.  When a call whose
    controller is aborted settles, however late and whether it resolved
    or rejected, its continuation returns at the guard: status,
    recommendations, cluster, message and narrative (and every other cell
    of the component) stay as they were. *)
Theorem cancelled_completion_discarded
    (args : RunArgs) (c : nat) (o : Settlement) (h : Home)
    (trace : list (Z * Event)) :
  recStatus (shown (runInference args h)) <> error /\
  shown (unmount h) = shown h /\
  (aborted c h = true ->
   let later := run h trace in
   resume c o later = later /\
   shown (handle (Settled c o) later) = shown later /\
   pref (handle (Settled c o) later) = pref later /\
   refs (handle (Settled c o) later) = refs later).
Proof.
  split; [apply runInference_never_error|].
  split; [unfold unmount; cbn; apply abortCurrent_shown|].
  intros Hc later.
  assert (Ha : aborted c later = true) by now apply run_aborted_mono.
  destruct (handle_settled_aborted c o _ Ha) as (E1 & E2 & E3).
  rewrite E1, E2, E3. now rewrite resume_aborted.
Qed.

(** In a reachable state, a call in flight that is not the one of the
    current controller has been aborted. *)
Lemma superseded_aborted (c : nat) (h : Home) :
  reachable h ->
  c ∈ inflight (env h) ->
  inferenceController (refs h) <> Some c ->
  aborted c h = true.
Proof.
  intros Hr Hin Hne.
  destruct (reachable_controllerInvariant h Hr) as [I1 I2 I3 I4].
  apply I2; [now apply I3 | exact Hne].
Qed.

Lemma runInference_live_fetches (args : RunArgs) (h : Home) :
  USE_DEMO_SIGNALS = false ->
  exists payload,
    fetches (env (runInference args h))
    = (fetches (env h)
       ++ [{| body := payload; signal := length (controllers (env h)) |}])%list.
Proof.
  intros E. rewrite runInference_live by easy. cbn.
  rewrite abortCurrent_fetches. eauto.
Qed.

(** C1.  Two runs are dispatched, A and then B, with the controllers [a]
    and [b].  Both calls are in flight and A's controller is aborted by
    B's dispatch.  When B's response arrives first, the display holds B's
    projected result; when A's response (or failure) arrives after it,
    nothing changes: the display still holds B's result.  In general, in
    every reachable state, the settlement of a call in flight other than
    the one of the current controller leaves the display as it is. *)
Theorem stale_response_discarded
    (argsA argsB : RunArgs) (status : Z) (rB : Response.t) (oA : Settlement)
    (h : Home) :
  USE_DEMO_SIGNALS = false ->
  200 <= status <= 299 ->
  let a := length (controllers (env h)) in
  let hA := runInference argsA h in
  let b := length (controllers (env hA)) in
  let hB := runInference argsB hA in
  let h1 := handle (Settled b (Responded status (Some rB))) hB in
  let h2 := handle (Settled a oA) h1 in
  (a ∈ inflight (env hB) /\ b ∈ inflight (env hB) /\ a <> b) /\
  shown h1 = shown (applyResponse rB hB) /\
  a ∈ inflight (env h1) /\
  shown h2 = shown h1 /\
  (forall (s : Home) (c : nat) (o : Settlement),
     reachable s ->
     c ∈ inflight (env s) ->
     inferenceController (refs s) <> Some c ->
     shown (handle (Settled c o) s) = shown s).
Proof.
  intros D Hs a hA b hB h1 h2.
  assert (Eb : b = S a) by (apply runInference_live_length; exact D).
  assert (HinA : a ∈ inflight (env hB)).
  { unfold hB, hA. rewrite !runInference_live_inflight by exact D.
    rewrite !elem_of_app, !list_elem_of_singleton. left; right. reflexivity. }
  assert (HinB : b ∈ inflight (env hB)).
  { unfold hB. rewrite runInference_live_inflight by exact D.
    rewrite elem_of_app, list_elem_of_singleton. right. reflexivity. }
  assert (HaA : aborted a hB = true).
  { unfold hB. apply runInference_aborts_current; [exact D| |].
    - unfold hA. now apply runInference_live_current.
    - fold b. lia. }
  assert (HbB : aborted b hB = false).
  { unfold hB, b. now apply runInference_fresh. }
  assert (E1 : shown h1 = shown (applyResponse rB hB)).
  { unfold h1. rewrite handle_settled_live by exact HinB.
    now rewrite resume_success. }
  assert (HinA1 : a ∈ inflight (env h1)).
  { unfold h1. cbn [handle]. rewrite bool_decide_eq_true_2 by exact HinB.
    rewrite useEffects_inflight, resume_env. cbn.
    apply list_elem_of_filter. split; [lia | exact HinA]. }
  assert (HaA1 : aborted a h1 = true).
  { unfold h1. now apply handle_aborted_mono. }
  repeat split; try assumption; try lia.
  - unfold h2. now apply handle_settled_aborted.
  - intros s c o Hr Hin Hne.
    apply handle_settled_aborted. now apply superseded_aborted.
Qed.

Lemma handle_RunSignal_debounce (h : Home) :
  debounce (env (handle RunSignal h)) = debounce (env h).
Proof.
  cbn [handle]. unfold handleRunSignal.
  rewrite useEffects_same_pref by apply runInference_pref.
  apply runInference_debounce.
Qed.

(** C2, as the code has it.  A manual run invalidates every call in
    flight: after it, the controllers of all of them are aborted, and
    whenever one of them settles later, after whatever else happens in
    between, the stored recommendations, cluster, narrative, message and
    status stay as they are.  The pending debounce timeout is not
    touched: it stays set, with the same due time and bias. *)
Theorem manual_run_invalidates_calls
    (c : nat) (o : Settlement) (trace : list (Z * Event)) (h : Home) :
  reachable h ->
  let h' := handle RunSignal h in
  debounce (env h') = debounce (env h) /\
  (c ∈ inflight (env h) ->
   aborted c h' = true /\
   let later := run h' trace in
   shown (handle (Settled c o) later) = shown later).
Proof.
  intros Hr h'. split; [apply handle_RunSignal_debounce|].
  intros Hin.
  assert (Ha : aborted c h' = true).
  { destruct (reachable_controllerInvariant h Hr) as [I1 I2 I3 I4].
    unfold h'. cbn [handle]. rewrite useEffects_aborted.
    unfold handleRunSignal.
    destruct USE_DEMO_SIGNALS eqn:D.
    - destruct I4 as (_ & _ & Q & _); [reflexivity|]. rewrite Q in Hin.
      now apply elem_of_nil in Hin.
    - destruct (decide (inferenceController (refs h) = Some c)) as [Hcur|Hcur].
      + apply runInference_aborts_current; auto.
      + apply runInference_aborted_mono. auto. }
  split; [exact Ha|]. intros later.
  apply handle_settled_aborted. now apply run_aborted_mono.
Qed.

Lemma binary64_snapWeight_snapped (value : float) :
  Binary64.snapWeight value = 50%float \/ Binary64.snapWeight value = 60%float.
Proof. unfold Binary64.snapWeight. destruct (value <? 50)%float; auto. Qed.

#[local] Set Warnings "-inexact-float".

(** C10.  In every state the component can reach, each place a bias is
    kept (the state cell, its mirror in [weightRef], the closure of the
    pending timeout) holds one of the two snapped values 50 and 60, and
    every request sent so far carries either the weights 0.5 and 0.5 or
    the weights 0.6 and 0.4.  On doubles, too, [snapWeight] yields 50 or
    60 for every number, NaN included, and the two biases yield exactly
    the doubles 0.5 and 0.5, and 0.6 and 0.4. *)
Theorem requests_carry_snapped_mix (h : Home) :
  reachable h ->
  (effectiveBias (pref h) = 50 \/ effectiveBias (pref h) = 60) /\
  (weightRef (refs h) = 50 \/ weightRef (refs h) = 60) /\
  (forall tm, debounce (env h) = Some tm ->
              captured_bias tm = 50 \/ captured_bias tm = 60) /\
  Forall (fun f =>
            (Request.price_weight (body f) == 0.5 /\
             Request.sentiment_weight (body f) == 0.5)%Q \/
            (Request.price_weight (body f) == 0.6 /\
             Request.sentiment_weight (body f) == 0.4)%Q)
         (fetches (env h)) /\
  (forall value : float,
     Binary64.snapWeight value = 50%float \/
     Binary64.snapWeight value = 60%float) /\
  Binary64.toRequestWeights 50 = (0.5, 0.5)%float /\
  Binary64.toRequestWeights 60 = (0.6, 0.4)%float.
Proof.
  intros Hr. destruct (reachable_biasInvariant h Hr) as [I1 I2 I3 I4].
  repeat split; try assumption.
  - apply binary64_snapWeight_snapped.
Qed.

Lemma runInference_demo_snapshot (args : RunArgs) (h : Home) :
  USE_DEMO_SIGNALS = true ->
  showsDemoSnapshot (runInference args h) /\
  env (runInference args h) = env h.
Proof. intros D. rewrite runInference_demo by exact D. now cbn. Qed.

(** A slider move or a focus toggle that changes the weight or the bias
    restarts the debounce timeout: it is due one delay from now and
    carries the new bias. *)
Lemma biasEvent_restarts_debounce (ev : Event) (h : Home) :
  biasEvent ev ->
  effectiveBias (pref (handle ev h)) <> effectiveBias (pref h) \/
  weight (pref (handle ev h)) <> weight (pref h) ->
  debounce (env (handle ev h))
  = Some {| due := clock (env h) + debounceDelay;
            captured_bias := effectiveBias (pref (handle ev h)) |}
  /\ shown (handle ev h) = shown h
  /\ fetches (env (handle ev h)) = fetches (env h)
  /\ clock (env (handle ev h)) = clock (env h).
Proof.
  intros Hev Hch.
  destruct ev; try contradiction; cbn [handle] in *;
    rewrite useEffects_pref in Hch;
    rewrite useEffects_debounce, useEffects_shown, useEffects_fetches,
      useEffects_clock, useEffects_pref;
    (destruct (_ && _) eqn:Hsame;
     [ apply andb_true_iff in Hsame; destruct Hsame as [S1 S2];
       apply Z.eqb_eq in S1; apply Z.eqb_eq in S2;
       destruct Hch as [Hch|Hch]; congruence
     | repeat split ]).
Qed.

Lemma fire_demo (tm : Timeout) (h : Home) :
  USE_DEMO_SIGNALS = true ->
  showsDemoSnapshot (fire tm h) /\ fetches (env (fire tm h)) = fetches (env h).
Proof.
  intros D. unfold fire, debounceCallback.
  match goal with
  | |- context [useEffects ?s (runInference ?a ?s)] =>
      rewrite (useEffects_same_pref s (runInference a s))
        by apply runInference_pref;
      destruct (runInference_demo_snapshot a s D) as [S E]
  end.
  split; [exact S|]. now rewrite E.
Qed.

(** C5.  With demo signals on: a manual run leaves the demo
    recommendations, the demo cluster and the demo narrative on display
    with status Idle, and sends nothing; so does a slider move or focus
    toggle that changes the weight or the bias, once its (zero-delay)
    timeout has fired; and in every reachable state no request has been
    sent at all and the status is Idle.  The state the run starts from,
    hence the wallet field and the bias, is arbitrary. *)
Theorem demo_mode_serves_snapshot (ev : Event) (t : Z) (h : Home) :
  USE_DEMO_SIGNALS = true ->
  (let h' := handle RunSignal h in
   showsDemoSnapshot h' /\ fetches (env h') = fetches (env h)) /\
  (biasEvent ev ->
   effectiveBias (pref (handle ev h)) <> effectiveBias (pref h) \/
   weight (pref (handle ev h)) <> weight (pref h) ->
   clock (env h) <= t ->
   let h' := advance t (handle ev h) in
   showsDemoSnapshot h' /\ fetches (env h') = fetches (env h)) /\
  (reachable h -> fetches (env h) = [] /\ recStatus (shown h) = idle).
Proof.
  intros D. split; [|split].
  - cbn [handle]. unfold handleRunSignal.
    rewrite useEffects_same_pref by apply runInference_pref.
    destruct (runInference_demo_snapshot
                {| trigger := Manual; bias := None; includeWallet := true |}
                h D) as [S E].
    split; [exact S | now rewrite E].
  - intros Hev Hch Ht h'.
    destruct (biasEvent_restarts_debounce ev h Hev Hch) as (Hd & Hs & Hf & Hk).
    subst h'. unfold advance. rewrite Hd. cbn [due].
    unfold debounceDelay. rewrite D.
    replace (clock (env h) + 0 <=? t) with true by lia.
    destruct (fire_demo
                {| due := clock (env h) + 0;
                   captured_bias := effectiveBias (pref (handle ev h)) |}
                (handle ev h) D) as [S E].
    split; [exact S|]. cbn. now rewrite E.
  - intros Hr.
    destruct (demo_quiet h (reachable_controllerInvariant h Hr) D)
      as (_ & Q & _ & Q'). now split.
Qed.

(** ** The debounce window *)

(** A slider move while the timeout is pending and not yet due. *)
Lemma step_slider_pending (t value : Z) (tm : Timeout) (h : Home) :
  debounce (env h) = Some tm ->
  t < due tm ->
  let h' := step h (t, SliderInput value) in
  fetches (env h') = fetches (env h) /\
  controllers (env h') = controllers (env h) /\
  clock (env h') = Z.max (clock (env h)) t /\
  effectiveBias (pref h') = snapWeight value /\
  weight (pref h') = value /\
  debounce (env h') =
    if (effectiveBias (pref h) =? snapWeight value)
       && (weight (pref h) =? value)
    then Some tm
    else Some {| due := Z.max (clock (env h)) t + debounceDelay;
                 captured_bias := snapWeight value |}.
Proof.
  intros Hd Ht h'. subst h'. unfold step. cbn [fst snd handle].
  assert (E : advance t h = setClock (Z.max (clock (env h)) t) h).
  { unfold advance. rewrite Hd.
    replace (due tm <=? t) with false by lia. reflexivity. }
  rewrite E.
  rewrite useEffects_fetches, useEffects_controllers, useEffects_clock,
    useEffects_pref, useEffects_debounce.
  cbn. rewrite Hd. repeat split; reflexivity.
Qed.

(** Time passes and the pending timeout is not due yet: nothing is sent. *)
Lemma advance_before_due (t : Z) (tm : Timeout) (h : Home) :
  debounce (env h) = Some tm -> t < due tm ->
  fetches (env (advance t h)) = fetches (env h).
Proof.
  intros Hd Ht. unfold advance. rewrite Hd.
  replace (due tm <=? t) with false by lia. reflexivity.
Qed.

(** Time passes beyond the due time: the timeout fires and one request
    goes out, built from the bias the timeout captured, without a wallet
    hint, under a new controller. *)
Lemma advance_past_due (t : Z) (tm : Timeout) (h : Home) :
  USE_DEMO_SIGNALS = false ->
  debounce (env h) = Some tm -> due tm <= t ->
  fetches (env (advance t h))
  = (fetches (env h)
     ++ [{| body := {| Request.price_weight :=
                         fst (toRequestWeights (captured_bias tm));
                       Request.sentiment_weight :=
                         snd (toRequestWeights (captured_bias tm));
                       Request.wallet := None |};
            signal := length (controllers (env h)) |}])%list
  /\ debounce (env (advance t h)) = None.
Proof.
  intros D Hd Ht. unfold advance. rewrite Hd.
  replace (due tm <=? t) with true by lia.
  unfold fire, debounceCallback. rewrite D.
  match goal with
  | |- context [useEffects ?s (runInference ?a ?s)] =>
      rewrite (useEffects_same_pref s (runInference a s))
        by apply runInference_pref
  end.
  cbn [env setClock withEnv fetches debounce].
  rewrite runInference_debounce.
  rewrite runInference_live by exact D. cbn.
  now rewrite abortCurrent_fetches.
Qed.

(** C6.  The component is mounted at time 0 with live signals.  The
    slider then moves at 0 ms to a value that snaps to 50, at 100 ms to a
    value that snaps to 60 and at 150 ms to a value that snaps to 60.
    Each move restarts the 600 ms timeout or leaves the pending one in
    place; no request goes out before 700 ms, and once 750 ms have
    passed exactly one request has gone out, carrying the last bias, 60,
    as the weights 0.6 and 0.4. *)
Theorem debounce_single_dispatch (v0 v1 v2 early late : Z) :
  USE_DEMO_SIGNALS = false ->
  v0 < 50 -> 50 <= v1 -> 50 <= v2 ->
  early < 700 -> 750 <= late ->
  let h := run (mount 0) [(0, SliderInput v0);
                          (100, SliderInput v1);
                          (150, SliderInput v2)] in
  effectiveBias (pref h) = 60 /\
  fetches (env h) = [] /\
  fetches (env (advance early h)) = [] /\
  exists f,
    fetches (env (advance late h)) = [f] /\
    (Request.price_weight (body f) == 0.6)%Q /\
    (Request.sentiment_weight (body f) == 0.4)%Q /\
    Request.wallet (body f) = None.
Proof.
  intros D H0 H1 H2 He Hl. cbn [run fold_left].
  assert (S0 : snapWeight v0 = 50)
    by (unfold snapWeight; now replace (v0 <? 50) with true by lia).
  assert (S1 : snapWeight v1 = 60)
    by (unfold snapWeight; now replace (v1 <? 50) with false by lia).
  assert (S2 : snapWeight v2 = 60)
    by (unfold snapWeight; now replace (v2 <? 50) with false by lia).
  assert (Delay : debounceDelay = 600) by (unfold debounceDelay; now rewrite D).
  (* the move at 0 ms *)
  set (m := mount 0).
  destruct (step_slider_pending 0 v0 {| due := 0 + debounceDelay;
                                        captured_bias := snapWeight DEMO_WEIGHT |}
              m eq_refl) as (F1 & C1 & K1 & B1 & W1 & T1).
  { cbn. lia. }
  set (h1 := step m (0, SliderInput v0)) in *.
  assert (T1' : debounce (env h1) = Some {| due := 600; captured_bias := 50 |}).
  { rewrite T1. cbn. rewrite Delay, S0.
    destruct (snapWeight DEMO_WEIGHT =? 50) eqn:Same; cbn; [|reflexivity].
    apply Z.eqb_eq in Same. rewrite Same.
    now destruct (DEMO_WEIGHT =? v0). }
  (* the move at 100 ms *)
  destruct (step_slider_pending 100 v1 _ h1 T1') as (F2 & C2 & K2 & B2 & W2 & T2).
  { cbn. lia. }
  set (h2 := step h1 (100, SliderInput v1)) in *.
  assert (T2' : debounce (env h2) = Some {| due := 700; captured_bias := 60 |}).
  { rewrite T2, B1, S0, S1, K1, Delay. reflexivity. }
  (* the move at 150 ms *)
  destruct (step_slider_pending 150 v2 _ h2 T2') as (F3 & C3 & K3 & B3 & W3 & T3).
  { cbn. lia. }
  set (h3 := step h2 (150, SliderInput v2)) in *.
  assert (T3' : exists d, 700 <= d <= 750 /\
                debounce (env h3) = Some {| due := d; captured_bias := 60 |}).
  { rewrite T3, B2, W2, S1, S2, K2, K1, Delay.
    change (clock (env m)) with 0.
    destruct (v1 =? v2); cbn; eexists; (split; [|reflexivity]); lia. }
  destruct T3' as (d & Hd & T3').
  assert (F : fetches (env h3) = []) by (rewrite F3, F2, F1; reflexivity).
  assert (C : controllers (env h3) = []) by (rewrite C3, C2, C1; reflexivity).
  split; [now rewrite B3|]. split; [exact F|]. split.
  - rewrite (advance_before_due early _ h3 T3') by (cbn; lia). exact F.
  - destruct (advance_past_due late _ h3 D T3') as [E _]; [cbn; lia|].
    rewrite E, F, C. cbn. eexists. split; [reflexivity|].
    cbn. repeat split; reflexivity.
Qed.

(** * Further properties of the component *)

(** ** The mirrors *)

Lemma useEffects_walletRef (prev h : Home) :
  walletRef (refs (useEffects prev h)) =
  if String.eqb (wallet (pref prev)) (wallet (pref h))
  then walletRef (refs h) else wallet (pref h).
Proof.
  unfold useEffects, walletRefEffect, weightRefEffect, debounceEffect.
  split_ifs; try reflexivity; cbn in *; congruence.
Qed.

Lemma runInference_walletRef (args : RunArgs) (h : Home) :
  walletRef (refs (runInference args h)) = walletRef (refs h).
Proof.
  destruct USE_DEMO_SIGNALS eqn:E.
  - now rewrite runInference_demo.
  - rewrite runInference_live by easy. cbn. now rewrite abortCurrent_refs.
Qed.

Lemma mirrorInvariant_mount (t0 : Z) : mirrorInvariant (mount t0).
Proof.
  split; cbn; try reflexivity.
  - intros tm [= <-]. split; [reflexivity | apply Z.le_refl].
  - discriminate.
Qed.

(** The render after a handler that wrote only preference cells. *)
Lemma mirrorInvariant_render (prev h : Home) :
  mirrorInvariant prev ->
  walletRef (refs h) = walletRef (refs prev) ->
  weightRef (refs h) = weightRef (refs prev) ->
  debounce (env h) = debounce (env prev) ->
  clock (env h) = clock (env prev) ->
  effectiveBias (pref h) = snapWeight (weight (pref h)) ->
  (focus (pref h) = sentiment -> weight (pref h) = 25) ->
  mirrorInvariant (useEffects prev h).
Proof.
  intros [I1 I2 I3 I4 I5] Ew Eb Ed Ec Hb Hf. split.
  - rewrite useEffects_walletRef, useEffects_pref.
    destruct (String.eqb_spec (wallet (pref prev)) (wallet (pref h)));
      congruence.
  - rewrite useEffects_weightRef, useEffects_pref.
    destruct (Z.eqb_spec (effectiveBias (pref prev)) (effectiveBias (pref h)));
      congruence.
  - now rewrite useEffects_pref.
  - rewrite useEffects_debounce, useEffects_pref, useEffects_clock.
    destruct (Z.eqb_spec (effectiveBias (pref prev)) (effectiveBias (pref h)))
      as [Eq|Ne]; cbn [andb].
    + destruct (weight (pref prev) =? weight (pref h)).
      * rewrite Ed, Ec, <- Eq. apply I4.
      * intros tm [= <-]. split; [reflexivity | apply Z.le_refl].
    + intros tm [= <-]. split; [reflexivity | apply Z.le_refl].
  - now rewrite useEffects_pref.
Qed.

Lemma mirrorInvariant_runInference (args : RunArgs) (h : Home) :
  mirrorInvariant h -> mirrorInvariant (runInference args h).
Proof.
  intros [I1 I2 I3 I4 I5].
  split; rewrite ?runInference_walletRef, ?runInference_weightRef,
    ?runInference_pref, ?runInference_debounce, ?runInference_clock;
    assumption.
Qed.

Lemma mirrorInvariant_handle (ev : Event) (h : Home) :
  mirrorInvariant h -> mirrorInvariant (handle ev h).
Proof.
  intros I. destruct ev; cbn [handle].
  - apply mirrorInvariant_render; try easy. cbn.
    unfold snapWeight. now destruct (value <? 50).
  - apply mirrorInvariant_render; try easy; now destruct mode.
  - destruct I as [I1 I2 I3 I4 I5]. now apply mirrorInvariant_render.
  - unfold handleRunSignal.
    rewrite useEffects_same_pref by apply runInference_pref.
    now apply mirrorInvariant_runInference.
  - destruct (bool_decide _); [|easy].
    rewrite useEffects_same_pref by now rewrite resume_pref.
    destruct I as [I1 I2 I3 I4 I5].
    split; rewrite ?resume_pref, ?resume_refs, ?resume_env; assumption.
  - destruct I as [I1 I2 I3 I4 I5]. unfold unmount.
    split; cbn; rewrite ?abortCurrent_pref, ?abortCurrent_refs; try assumption.
    discriminate.
Qed.

Lemma mirrorInvariant_setClock (t : Z) (h : Home) :
  mirrorInvariant h -> clock (env h) <= t -> mirrorInvariant (setClock t h).
Proof.
  intros [I1 I2 I3 I4 I5] Ht. split; try assumption.
  intros tm Htm. destruct (I4 tm Htm) as [E1 E2].
  split; [exact E1|]. cbn [setClock withEnv env clock]. lia.
Qed.

Lemma mirrorInvariant_fire (tm : Timeout) (h : Home) :
  mirrorInvariant h -> mirrorInvariant (fire tm h).
Proof.
  intros I. unfold fire, debounceCallback.
  match goal with
  | |- context [useEffects ?s (runInference ?a ?s)] =>
      rewrite (useEffects_same_pref s (runInference a s))
        by apply runInference_pref
  end.
  apply mirrorInvariant_runInference.
  destruct I as [I1 I2 I3 I4 I5]. split; try assumption.
  discriminate.
Qed.

Lemma mirrorInvariant_advance (t : Z) (h : Home) :
  mirrorInvariant h -> mirrorInvariant (advance t h).
Proof.
  intros I. unfold advance.
  apply mirrorInvariant_setClock; [|lia].
  destruct (debounce (env h)) as [tm|]; [|exact I].
  destruct (due tm <=? t); [|exact I].
  now apply mirrorInvariant_fire.
Qed.

Lemma reachable_mirrorInvariant (h : Home) : reachable h -> mirrorInvariant h.
Proof.
  induction 1.
  - apply mirrorInvariant_mount.
  - now apply mirrorInvariant_handle.
  - now apply mirrorInvariant_advance.
Qed.

(** ** The status *)

Lemma statusInvariant_ext (h h' : Home) :
  shown h' = shown h ->
  inflight (env h') = inflight (env h) ->
  controllers (env h') = controllers (env h) ->
  statusInvariant h -> statusInvariant h'.
Proof.
  intros E1 E2 E3 [I1 I2 I3]. split; rewrite ?E1, ?E2; try assumption.
  intros c Hin Hc. rewrite (aborted_ext c h' h E3) in Hc. now apply (I1 c).
Qed.

Lemma statusInvariant_mount (t0 : Z) : statusInvariant (mount t0).
Proof.
  split; cbn; try discriminate.
  intros c Hc. now apply elem_of_nil in Hc.
Qed.

Lemma statusInvariant_useEffects (prev h : Home) :
  statusInvariant h -> statusInvariant (useEffects prev h).
Proof.
  apply statusInvariant_ext.
  - apply useEffects_shown.
  - apply useEffects_inflight.
  - apply useEffects_controllers.
Qed.

Lemma statusInvariant_runInference (args : RunArgs) (h : Home) :
  controllerInvariant h -> statusInvariant h ->
  statusInvariant (runInference args h).
Proof.
  intros [C1 C2 C3 C4] [I1 I2 I3]. destruct USE_DEMO_SIGNALS eqn:D.
  - destruct C4 as (_ & _ & Q & _); [reflexivity|].
    rewrite runInference_demo by exact D. split; cbn; try discriminate.
    intros c Hin. rewrite Q in Hin. now apply elem_of_nil in Hin.
  - split; rewrite runInference_live_shown by exact D; cbn; try discriminate.
    + reflexivity.
    + intros _. destruct (trigger args); auto.
Qed.

Lemma statusInvariant_settled (c : nat) (o : Settlement) (h : Home) :
  controllerInvariant h -> statusInvariant h ->
  c ∈ inflight (env h) ->
  statusInvariant
    (resume c o (setInflight (filter (fun i => i <> c) (inflight (env h))) h)).
Proof.
  intros [C1 C2 C3 C4] [I1 I2 I3] Hin.
  destruct (aborted c h) eqn:Hc.
  - rewrite resume_aborted by exact Hc. split; cbn; try assumption.
    intros c' Hin' Hc'. apply list_elem_of_filter in Hin'.
    apply (I1 c'); [easy | exact Hc'].
  - assert (Hcur : inferenceController (refs h) = Some c).
    { destruct (decide (inferenceController (refs h) = Some c)) as [E|N];
        [exact E|].
      rewrite C2 in Hc; [discriminate | now apply C3 | exact N]. }
    assert (Hnone : forall c', c' ∈ filter (fun i => i <> c) (inflight (env h)) ->
                               aborted c' h = true).
    { intros c' Hin'. apply list_elem_of_filter in Hin'. destruct Hin' as [Hne Hin'].
      apply C2; [now apply C3|]. rewrite Hcur. congruence. }
    unfold resume. rewrite aborted_setInflight, Hc.
    destruct (awaited o) as [r|]; split; cbn; try discriminate.
    + intros c' Hin' Hc'. apply Hnone in Hin'.
      unfold aborted in *. cbn in Hc'. congruence.
    + intros c' Hin' Hc'. apply Hnone in Hin'.
      unfold aborted in *. cbn in Hc'. congruence.
    + intros _. repeat split.
Qed.

Lemma statusInvariant_unmount (h : Home) :
  statusInvariant h -> statusInvariant (unmount h).
Proof.
  intros [I1 I2 I3]. unfold unmount.
  split; cbn; rewrite ?abortCurrent_shown, ?abortCurrent_inflight;
    try assumption.
  intros c Hin Hc. apply (I1 c Hin).
  destruct (aborted c h) eqn:E; [|reflexivity].
  apply aborted_abortCurrent_mono in E.
  erewrite aborted_ext with (h' := abortCurrent h) in Hc by reflexivity.
  congruence.
Qed.

Lemma statusInvariant_handle (ev : Event) (h : Home) :
  controllerInvariant h -> statusInvariant h -> statusInvariant (handle ev h).
Proof.
  intros C I. destruct ev; cbn [handle].
  - apply statusInvariant_useEffects. revert I. now apply statusInvariant_ext.
  - apply statusInvariant_useEffects. revert I. now apply statusInvariant_ext.
  - apply statusInvariant_useEffects. revert I. now apply statusInvariant_ext.
  - now apply statusInvariant_useEffects, statusInvariant_runInference.
  - destruct (bool_decide _) eqn:Hin; [|easy].
    apply bool_decide_eq_true in Hin.
    now apply statusInvariant_useEffects, statusInvariant_settled.
  - now apply statusInvariant_unmount.
Qed.

Lemma statusInvariant_advance (t : Z) (h : Home) :
  controllerInvariant h -> statusInvariant h -> statusInvariant (advance t h).
Proof.
  intros C I. unfold advance.
  eapply statusInvariant_ext with
    (h := match debounce (env h) with
          | Some tm => if due tm <=? t then fire tm h else h
          | None => h
          end); try reflexivity.
  destruct (debounce (env h)) as [tm|]; [|easy].
  destruct (due tm <=? t); [|easy].
  unfold fire, debounceCallback.
  apply statusInvariant_useEffects, statusInvariant_runInference.
  - revert C. now apply controllerInvariant_ext.
  - revert I. now apply statusInvariant_ext.
Qed.

Lemma reachable_statusInvariant (h : Home) : reachable h -> statusInvariant h.
Proof.
  induction 1 as [t0|ev h Hr IH|t h Hr IH].
  - apply statusInvariant_mount.
  - apply statusInvariant_handle; [|exact IH].
    now apply reachable_controllerInvariant.
  - apply statusInvariant_advance; [|exact IH].
    now apply reachable_controllerInvariant.
Qed.

(** ** Properties read off the coordinator *)

(** X1.  In every reachable state the two mirror refs hold what the state
    cells hold: [walletRef] the wallet text and [weightRef] the effective
    bias.  A run that reads the refs therefore reads the state on
    screen. *)
Theorem refs_mirror_state (h : Home) :
  reachable h ->
  walletRef (refs h) = wallet (pref h) /\
  weightRef (refs h) = effectiveBias (pref h).
Proof.
  intros Hr. destruct (reachable_mirrorInvariant h Hr) as [I1 I2 _ _ _].
  now split.
Qed.

(** X2.  In every reachable state the effective bias is the snapped
    weight, so the two never drift apart.  A slider move always selects
    the price focus, whatever the value; the sentiment focus is therefore
    only ever seen with the weight 25 and the bias 50 of its toggle. *)
Theorem bias_is_snapped_weight (value : Z) (h : Home) :
  reachable h ->
  effectiveBias (pref h) = snapWeight (weight (pref h)) /\
  focus (pref (handle (SliderInput value) h)) = price /\
  (focus (pref h) = sentiment ->
   weight (pref h) = 25 /\ effectiveBias (pref h) = 50).
Proof.
  intros Hr. destruct (reachable_mirrorInvariant h Hr) as [_ _ I3 _ I5].
  split; [exact I3|]. split.
  - cbn [handle]. rewrite useEffects_pref. cbn.
    unfold snapWeight. now destruct (value <? 50).
  - intros Hf. specialize (I5 Hf). split; [exact I5|].
    now rewrite I3, I5.
Qed.

(** X3.  A pending debounce timeout always carries the bias of the
    current state, and it is due at most 600 ms from now. *)
Theorem timeout_carries_current_bias (tm : Timeout) (h : Home) :
  reachable h ->
  debounce (env h) = Some tm ->
  captured_bias tm = effectiveBias (pref h) /\
  due tm <= clock (env h) + 600.
Proof.
  intros Hr Htm. destruct (reachable_mirrorInvariant h Hr) as [_ _ _ I4 _].
  destruct (I4 tm Htm) as [E1 E2]. split; [exact E1|].
  unfold debounceDelay, DEBOUNCE_MS in E2.
  destruct USE_DEMO_SIGNALS; lia.
Qed.

(** X4.  At most one call is live.  In every reachable state, a call in
    flight whose controller is not aborted is the call of the current
    controller; while there is one, the status is Loading and the
    "Run signal" button is disabled. *)
Theorem live_call_is_current (c : nat) (h : Home) :
  reachable h ->
  c ∈ inflight (env h) ->
  aborted c h = false ->
  inferenceController (refs h) = Some c /\
  recStatus (shown h) = loading /\
  runSignalDisabled h = true.
Proof.
  intros Hr Hin Hc.
  destruct (reachable_controllerInvariant h Hr) as [C1 C2 C3 C4].
  destruct (reachable_statusInvariant h Hr) as [I1 _ _].
  assert (Hl : recStatus (shown h) = loading) by now apply (I1 c).
  split; [|split; [exact Hl|]].
  - destruct (decide (inferenceController (refs h) = Some c)) as [E|N];
      [exact E|].
    rewrite C2 in Hc; [discriminate | now apply C3 | exact N].
  - unfold runSignalDisabled, WalletSignalCard.runDisabled. now rewrite Hl.
Qed.

(** X5.  With live signals, a manual run from a reachable state sends
    exactly one request, built from what is on screen: the weights of the
    current effective bias, and the trimmed wallet text, or no wallet when
    the text is blank. *)
Theorem manual_run_sends_screen_state (h : Home) :
  USE_DEMO_SIGNALS = false ->
  reachable h ->
  fetches (env (handle RunSignal h)) =
  (fetches (env h)
   ++ [{| body :=
            {| Request.price_weight :=
                 fst (toRequestWeights (effectiveBias (pref h)));
               Request.sentiment_weight :=
                 snd (toRequestWeights (effectiveBias (pref h)));
               Request.wallet :=
                 if (0 <? String.length (trim (wallet (pref h))))%nat
                 then Some (trim (wallet (pref h))) else None |};
          signal := length (controllers (env h)) |}])%list.
Proof.
  intros D Hr. destruct (reachable_mirrorInvariant h Hr) as [I1 I2 _ _ _].
  cbn [handle]. unfold handleRunSignal.
  rewrite useEffects_same_pref by apply runInference_pref.
  rewrite runInference_live by exact D. cbn.
  now rewrite abortCurrent_fetches, I1, I2.
Qed.

(** X6.  The debounce law, with live signals.  After a slider move or a
    focus toggle that changes the weight or the bias, nothing is sent
    while less than 600 ms have passed since the event; once 600 ms have
    passed, exactly one request has been sent, with the weights of the
    new bias and without a wallet. *)
Theorem bias_change_sends_after_delay (ev : Event) (t : Z) (h : Home) :
  USE_DEMO_SIGNALS = false ->
  biasEvent ev ->
  effectiveBias (pref (handle ev h)) <> effectiveBias (pref h) \/
  weight (pref (handle ev h)) <> weight (pref h) ->
  let h' := handle ev h in
  (t < clock (env h) + 600 ->
   fetches (env (advance t h')) = fetches (env h)) /\
  (clock (env h) + 600 <= t ->
   fetches (env (advance t h')) =
   (fetches (env h)
    ++ [{| body :=
             {| Request.price_weight :=
                  fst (toRequestWeights (effectiveBias (pref h')));
                Request.sentiment_weight :=
                  snd (toRequestWeights (effectiveBias (pref h')));
                Request.wallet := None |};
           signal := length (controllers (env h)) |}])%list).
Proof.
  intros D Hev Hch h'.
  destruct (biasEvent_restarts_debounce ev h Hev Hch) as (Hd & _ & Hf & _).
  assert (Delay : debounceDelay = 600) by (unfold debounceDelay; now rewrite D).
  rewrite Delay in Hd. fold h' in Hd, Hf.
  assert (Hc : controllers (env h') = controllers (env h)).
  { unfold h'. destruct ev; try contradiction; cbn [handle];
      now rewrite useEffects_controllers. }
  split; intros Ht.
  - rewrite (advance_before_due t _ h' Hd) by (cbn; lia). exact Hf.
  - destruct (advance_past_due t _ h' D Hd) as [E _]; [cbn; lia|].
    rewrite E, Hf, Hc. reflexivity.
Qed.

Lemma handle_settled_env (c : nat) (o : Settlement) (h : Home) :
  controllers (env (handle (Settled c o) h)) = controllers (env h) /\
  fetches (env (handle (Settled c o) h)) = fetches (env h) /\
  debounce (env (handle (Settled c o) h)) = debounce (env h) /\
  clock (env (handle (Settled c o) h)) = clock (env h).
Proof.
  cbn [handle]. destruct (bool_decide _); [|easy].
  rewrite useEffects_same_pref by now rewrite resume_pref.
  now rewrite resume_env.
Qed.

(** Nothing pending and every controller aborted: settlements and the
    passing of time change neither the display nor the requests sent. *)
Lemma quiet_run (trace : list (Z * Event)) (h : Home) :
  onlySettlements trace ->
  debounce (env h) = None ->
  (forall c, (c < length (controllers (env h)))%nat -> aborted c h = true) ->
  (forall c, c ∈ inflight (env h) -> (c < length (controllers (env h)))%nat) ->
  shown (run h trace) = shown h /\
  fetches (env (run h trace)) = fetches (env h) /\
  debounce (env (run h trace)) = None.
Proof.
  revert h. induction trace as [|[t ev] trace IH]; intros h Ht Hd Ha Hi.
  - easy.
  - apply Forall_cons in Ht. destruct Ht as [Hev Ht].
    destruct ev; try contradiction. cbn in Hev. clear Hev.
    cbn [run fold_left]. fold (run (step h (t, Settled controller o)) trace).
    unfold step. cbn [fst snd].
    assert (Ea : advance t h = setClock (Z.max (clock (env h)) t) h).
    { unfold advance. now rewrite Hd. }
    rewrite Ea. set (h1 := setClock (Z.max (clock (env h)) t) h).
    destruct (handle_settled_env controller o h1) as (E1 & E2 & E3 & E4).
    assert (Hs : shown (handle (Settled controller o) h1) = shown h1).
    { cbn [handle]. destruct (bool_decide _) eqn:Hin; [|easy].
      apply bool_decide_eq_true in Hin.
      rewrite useEffects_shown, resume_aborted; [easy|].
      rewrite aborted_setInflight. apply Ha. now apply Hi. }
    destruct (IH (handle (Settled controller o) h1)) as (R1 & R2 & R3).
    + exact Ht.
    + now rewrite E3.
    + intros c Hc. rewrite E1 in Hc.
      apply handle_aborted_mono. now apply Ha.
    + intros c Hc. rewrite E1. apply Hi.
      cbn [handle] in Hc. destruct (bool_decide _); [|exact Hc].
      rewrite useEffects_inflight, resume_env in Hc. cbn in Hc.
      now apply list_elem_of_filter in Hc.
    + rewrite R1, R2, R3, Hs, E2. easy.
Qed.

(** X7.  Unmounting quiesces the component.  After the unmount cleanup
    of a reachable state no timeout is pending and every controller is
    aborted; whatever calls settle afterwards, and whenever, the display
    stays as it was and no further request is sent. *)
Theorem unmount_quiesces (trace : list (Z * Event)) (h : Home) :
  reachable h ->
  let u := handle Unmount h in
  debounce (env u) = None /\
  (forall c, (c < length (controllers (env h)))%nat -> aborted c u = true) /\
  (onlySettlements trace ->
   shown (run u trace) = shown h /\
   fetches (env (run u trace)) = fetches (env h)).
Proof.
  intros Hr u.
  destruct (reachable_controllerInvariant h Hr) as [C1 C2 C3 C4].
  assert (Ha : forall c, (c < length (controllers (env h)))%nat ->
                         aborted c u = true).
  { intros c Hc. unfold u. cbn [handle]. unfold unmount.
    erewrite aborted_ext with (h' := abortCurrent h) by reflexivity.
    destruct (decide (inferenceController (refs h) = Some c)) as [E|N].
    - unfold abortCurrent. rewrite E. now apply aborted_abort_same.
    - now apply aborted_abortCurrent_mono, C2. }
  split; [reflexivity|]. split; [exact Ha|]. intros Ht.
  assert (Hlen : length (controllers (env u)) = length (controllers (env h))).
  { unfold u. cbn. apply length_abortCurrent. }
  destruct (quiet_run trace u Ht) as (R1 & R2 & _).
  - reflexivity.
  - intros c Hc. rewrite Hlen in Hc. now apply Ha.
  - intros c Hc. rewrite Hlen. apply C3.
    unfold u in Hc. cbn in Hc. now rewrite abortCurrent_inflight in Hc.
  - rewrite R1, R2. unfold u. cbn.
    now rewrite abortCurrent_shown, abortCurrent_fetches.
Qed.

(** X8.  An Error status always comes with the fallback snapshot.  In
    every reachable state whose status is Error, the display holds the
    fallback recommendations, cluster, narrative and message; the action
    stack shows these rows together with its error note (never the
    skeleton or the empty-state note), the cluster card shows the
    fallback cluster, and the message line reads "Heads up: " followed by
    the fallback message. *)
Theorem error_shows_fallback_snapshot (h : Home) :
  reachable h ->
  recStatus (shown h) = error ->
  recommendations (shown h) = DEMO_RECOMMENDATIONS /\
  clusterInsight (shown h) = Some DEMO_CLUSTER /\
  narrativeCopy (shown h) = DEFAULT_NARRATIVE /\
  ActionStackCard.body (recommendations (shown h)) (recStatus (shown h))
  = {| ActionStackCard.skeleton := false;
       ActionStackCard.emptyNote := false;
       ActionStackCard.rows := DEMO_RECOMMENDATIONS;
       ActionStackCard.errorNote := true |} /\
  ClusterInsightCard.body (clusterInsight (shown h)) (recStatus (shown h))
  = ClusterInsightCard.Insight DEMO_CLUSTER /\
  WalletSignalCard.messageLine (recStatus (shown h)) (modelMessage (shown h))
  = Some ("Heads up: " ++ FALLBACK_MESSAGE).
Proof.
  intros Hr He. destruct (reachable_statusInvariant h Hr) as [_ I2 _].
  destruct (I2 He) as (E1 & E2 & E3 & E4).
  rewrite E1, E2, E3, E4, He. repeat split.
Qed.

(** X9.  While the status is Loading, in every reachable state, the
    message is one of the two progress messages of [runInference], the
    action stack shows only its skeleton (no rows, even when
    recommendations of an earlier run are stored), and the "Run signal"
    button is disabled. *)
Theorem loading_shows_progress (h : Home) :
  reachable h ->
  recStatus (shown h) = loading ->
  (modelMessage (shown h) = Some AUTO_MESSAGE \/
   modelMessage (shown h) = Some MANUAL_MESSAGE) /\
  ActionStackCard.body (recommendations (shown h)) (recStatus (shown h))
  = {| ActionStackCard.skeleton := true;
       ActionStackCard.emptyNote := false;
       ActionStackCard.rows := [];
       ActionStackCard.errorNote := false |} /\
  runSignalDisabled h = true.
Proof.
  intros Hr Hl. destruct (reachable_statusInvariant h Hr) as [_ _ I3].
  split; [now apply I3|].
  unfold runSignalDisabled. rewrite Hl. split; reflexivity.
Qed.

(** ** The cluster card *)

Lemma replaceUnderscores_get (key : string) (i : nat) :
  String.get i (ClusterInsightCard.replaceUnderscores key) =
  match String.get i key with
  | Some c => Some (if Ascii.eqb c "_" then " "%char else c)
  | None => None
  end.
Proof.
  revert i. induction key as [|c rest IH]; intros i; [reflexivity|].
  destruct i as [|i]; cbn; [reflexivity | apply IH].
Qed.

Lemma replaceUnderscores_length (key : string) :
  String.length (ClusterInsightCard.replaceUnderscores key) = String.length key.
Proof. induction key as [|c rest IH]; cbn; [reflexivity | now rewrite IH]. Qed.

(** X10.  Whatever metrics a cluster carries, the cluster card shows at
    most four tiles: the first four entries, in order and with their
    values untouched.  Every label is as long as its key and has each
    underscore of the key replaced by a space, so no label contains an
    underscore. *)
Theorem metric_tiles_first_four (metrics : list (string * Q)) :
  let tiles := ClusterInsightCard.metricTiles metrics in
  length tiles = Nat.min 4 (length metrics) /\
  map snd tiles = firstn 4 (map snd metrics) /\
  map (fun t => String.length (fst t)) tiles
  = firstn 4 (map (fun m => String.length (fst m)) metrics) /\
  (forall label value i,
     In (label, value) tiles -> String.get i label <> Some "_"%char).
Proof.
  cbn zeta. unfold ClusterInsightCard.metricTiles.
  split; [|split; [|split]].
  - now rewrite length_map, length_firstn.
  - rewrite map_map, <- firstn_map. f_equal. apply map_ext. now intros [k v].
  - rewrite map_map, <- firstn_map. f_equal. apply map_ext.
    intros [k v]. cbn. apply replaceUnderscores_length.
  - intros label value i Hin.
    apply in_map_iff in Hin. destruct Hin as ([k v] & [= <- <-] & _).
    rewrite replaceUnderscores_get.
    destruct (String.get i k) as [c|]; [|discriminate].
    destruct (Ascii.eqb_spec c "_"); [discriminate | congruence].
Qed.

(** * The page with the preference panel *)

Ltac panel_render :=
  unfold Panel.render, Panel.walletRefEffect, Panel.weightRefEffect;
  repeat match goal with
         | |- context [if ?b then _ else _] => destruct b eqn:?
         end.

Lemma panel_render_pref (prev : Panel.Page) (h : Home) :
  pref (Panel.home (Panel.render USE_DEMO_SIGNALS prev h)) = pref h.
Proof. panel_render; reflexivity. Qed.

Lemma panel_render_shown (prev : Panel.Page) (h : Home) :
  shown (Panel.home (Panel.render USE_DEMO_SIGNALS prev h)) = shown h.
Proof. panel_render; reflexivity. Qed.

Lemma panel_render_fetches (prev : Panel.Page) (h : Home) :
  fetches (env (Panel.home (Panel.render USE_DEMO_SIGNALS prev h)))
  = fetches (env h).
Proof. panel_render; reflexivity. Qed.

Lemma panel_render_controllers (prev : Panel.Page) (h : Home) :
  controllers (env (Panel.home (Panel.render USE_DEMO_SIGNALS prev h)))
  = controllers (env h).
Proof. panel_render; reflexivity. Qed.

Lemma panel_render_inflight (prev : Panel.Page) (h : Home) :
  inflight (env (Panel.home (Panel.render USE_DEMO_SIGNALS prev h)))
  = inflight (env h).
Proof. panel_render; reflexivity. Qed.

Lemma panel_render_clock (prev : Panel.Page) (h : Home) :
  clock (env (Panel.home (Panel.render USE_DEMO_SIGNALS prev h)))
  = clock (env h).
Proof. panel_render; reflexivity. Qed.

Lemma panel_render_current (prev : Panel.Page) (h : Home) :
  inferenceController (refs (Panel.home (Panel.render USE_DEMO_SIGNALS prev h)))
  = inferenceController (refs h).
Proof. panel_render; reflexivity. Qed.

Lemma panel_render_walletRef (prev : Panel.Page) (h : Home) :
  walletRef (refs (Panel.home (Panel.render USE_DEMO_SIGNALS prev h))) =
  if String.eqb (wallet (pref (Panel.home prev))) (wallet (pref h))
  then walletRef (refs h) else wallet (pref h).
Proof. panel_render; try reflexivity; cbn in *; congruence. Qed.

(** Whether the debounce effect runs: it does when the bias or the status
    differs from the previous render. *)
Lemma panel_render_timeout (prev : Panel.Page) (h : Home) :
  (debounce (env (Panel.home (Panel.render USE_DEMO_SIGNALS prev h))),
   Panel.armed_status (Panel.render USE_DEMO_SIGNALS prev h)) =
  if (effectiveBias (pref (Panel.home prev)) =? effectiveBias (pref h))
     && Panel.RecStatus_eqb (recStatus (shown (Panel.home prev)))
                            (recStatus (shown h))
  then (debounce (env h), Panel.armed_status prev)
  else (Some {| due := clock (env h) + Panel.debounceDelay USE_DEMO_SIGNALS;
                captured_bias := effectiveBias (pref h) |},
        recStatus (shown h)).
Proof. panel_render; try reflexivity; cbn in *; congruence. Qed.

Lemma panel_RecStatus_eqb_spec (a b : RecStatus) :
  Panel.RecStatus_eqb a b = true <-> a = b.
Proof. destruct a, b; cbn; split; congruence. Qed.

Lemma panel_resume_pref (o : Panel.Settlement) (h : Home) :
  pref (Panel.resume toISOString o h) = pref h.
Proof.
  unfold Panel.resume. destruct (Panel.awaited o) as [[|]|r]; reflexivity.
Qed.

Lemma panel_resume_refs (o : Panel.Settlement) (h : Home) :
  refs (Panel.resume toISOString o h) = refs h.
Proof.
  unfold Panel.resume. destruct (Panel.awaited o) as [[|]|r]; reflexivity.
Qed.

Lemma panel_resume_env (o : Panel.Settlement) (h : Home) :
  env (Panel.resume toISOString o h) = env h.
Proof.
  unfold Panel.resume. destruct (Panel.awaited o) as [[|]|r]; reflexivity.
Qed.

(** A call that was not cancelled ends in Idle or in Error. *)
Lemma panel_resume_status (o : Panel.Settlement) (h : Home) :
  Panel.awaited o <> inl Panel.AbortError ->
  recStatus (shown (Panel.resume toISOString o h)) = idle \/
  recStatus (shown (Panel.resume toISOString o h)) = error.
Proof.
  intros Hn. unfold Panel.resume.
  destruct (Panel.awaited o) as [[|]|r]; [congruence | now right | now left].
Qed.

(** A live run that is not dropped sends one request. *)
Lemma panel_runInference_sends
    (closure_bias : Z) (closure_status : RecStatus) (args : RunArgs)
    (h : Home) :
  USE_DEMO_SIGNALS = false ->
  isLoading closure_status
  && match trigger args with Auto => true | Manual => false end = false ->
  fetches (env (Panel.runInference USE_DEMO_SIGNALS toISOString
                  closure_bias closure_status args h)) =
  (fetches (env h)
   ++ [{| body :=
            {| Request.price_weight :=
                 inject_Z (default closure_bias (bias args)) / 100;
               Request.sentiment_weight :=
                 1 - inject_Z (default closure_bias (bias args)) / 100;
               Request.wallet :=
                 if includeWallet args then Some (walletRef (refs h))
                 else None |};
          signal := length (controllers (env h)) |}])%list.
Proof.
  intros D Hg. unfold Panel.runInference, newAbortController.
  rewrite D, Hg. cbn.
  rewrite abortCurrent_fetches, abortCurrent_refs. reflexivity.
Qed.

(** X11.  In the page with the preference panel, every response starts
    another run.  With live signals, when the call of a run settles while
    the status is Loading (with a response or with a failure, but not by
    cancellation), the status changes, which replaces [runInference] and
    so restarts the debounce timeout; 600 ms later, with nothing else
    happening, a further request goes out with the same bias.  The page
    therefore keeps polling the service. *)
Theorem panel_response_starts_next_run
    (c : nat) (o : Panel.Settlement) (t : Z) (p : Panel.Page) :
  USE_DEMO_SIGNALS = false ->
  c ∈ inflight (env (Panel.home p)) ->
  aborted c (Panel.home p) = false ->
  recStatus (shown (Panel.home p)) = loading ->
  Panel.awaited o <> inl Panel.AbortError ->
  let p1 := Panel.handle USE_DEMO_SIGNALS toISOString (Panel.Settled c o) p in
  recStatus (shown (Panel.home p1)) <> loading /\
  debounce (env (Panel.home p1))
  = Some {| due := clock (env (Panel.home p)) + 600;
            captured_bias := effectiveBias (pref (Panel.home p)) |} /\
  (clock (env (Panel.home p)) + 600 <= t ->
   fetches (env (Panel.home
                   (Panel.advance USE_DEMO_SIGNALS toISOString t p1))) =
   (fetches (env (Panel.home p))
    ++ [{| body :=
             {| Request.price_weight :=
                  inject_Z (effectiveBias (pref (Panel.home p))) / 100;
                Request.sentiment_weight :=
                  1 - inject_Z (effectiveBias (pref (Panel.home p))) / 100;
                Request.wallet := None |};
           signal := length (controllers (env (Panel.home p))) |}])%list).
Proof.
  intros D Hin Hc Hl Hn p1.
  set (h := Panel.home p) in *.
  set (h1 := Panel.resume toISOString o
               (setInflight (filter (fun i => i <> c) (inflight (env h))) h)).
  assert (Ep1 : p1 = Panel.render USE_DEMO_SIGNALS p h1).
  { unfold p1. cbn [Panel.handle]. fold h.
    rewrite bool_decide_eq_true_2 by exact Hin.
    unfold Panel.delivered. now rewrite Hc. }
  clearbody p1.
  assert (Hs : recStatus (shown h1) = idle \/ recStatus (shown h1) = error)
    by (apply panel_resume_status; exact Hn).
  assert (Hp : pref h1 = pref h) by (unfold h1; now rewrite panel_resume_pref).
  assert (He : env h1 = env (setInflight
                 (filter (fun i => i <> c) (inflight (env h))) h))
    by (unfold h1; now rewrite panel_resume_env).
  assert (Delay : Panel.debounceDelay USE_DEMO_SIGNALS = 600)
    by (unfold Panel.debounceDelay; now rewrite D).
  assert (Ht : debounce (env (Panel.home p1)) =
               Some {| due := clock (env h) + 600;
                       captured_bias := effectiveBias (pref h) |}
               /\ Panel.armed_status p1 = recStatus (shown h1)).
  { pose proof (panel_render_timeout p h1) as E. rewrite <- Ep1 in E.
    fold h in E. rewrite Hp, Z.eqb_refl, Hl in E. cbn [andb] in E.
    replace (Panel.RecStatus_eqb loading (recStatus (shown h1))) with false in E
      by (destruct Hs as [-> | ->]; reflexivity).
    rewrite Delay, He in E. cbn in E. now inversion E. }
  destruct Ht as [Ht Ha].
  split; [|split; [exact Ht|]].
  - rewrite Ep1, panel_render_shown. destruct Hs as [-> | ->]; discriminate.
  - intros Hdue.
    assert (Hf1 : fetches (env (Panel.home p1)) = fetches (env h)).
    { rewrite Ep1, panel_render_fetches, He. reflexivity. }
    assert (Hc1 : controllers (env (Panel.home p1)) = controllers (env h)).
    { rewrite Ep1, panel_render_controllers, He. reflexivity. }
    unfold Panel.advance. rewrite Ht. cbn [due].
    replace (clock (env h) + 600 <=? t) with true by lia.
    cbn [Panel.home env setClock withEnv fetches].
    unfold Panel.fire. rewrite panel_render_fetches.
    rewrite panel_runInference_sends; [|exact D|].
    + cbn. rewrite Hf1, Hc1. reflexivity.
    + rewrite Ha. destruct Hs as [-> | ->]; reflexivity.
Qed.

Lemma panel_runInference_keeps
    (closure_bias : Z) (closure_status : RecStatus) (args : RunArgs)
    (h : Home) :
  pref (Panel.runInference USE_DEMO_SIGNALS toISOString
          closure_bias closure_status args h) = pref h /\
  walletRef (refs (Panel.runInference USE_DEMO_SIGNALS toISOString
                     closure_bias closure_status args h))
  = walletRef (refs h) /\
  debounce (env (Panel.runInference USE_DEMO_SIGNALS toISOString
                   closure_bias closure_status args h))
  = debounce (env h).
Proof.
  unfold Panel.runInference, newAbortController.
  destruct USE_DEMO_SIGNALS; [easy|].
  destruct (_ && _); [easy|]. cbn.
  now rewrite abortCurrent_pref, abortCurrent_refs, abortCurrent_debounce.
Qed.

Lemma panel_runInference_demo
    (closure_bias : Z) (closure_status : RecStatus) (args : RunArgs)
    (h : Home) :
  USE_DEMO_SIGNALS = true ->
  let h' := Panel.runInference USE_DEMO_SIGNALS toISOString
              closure_bias closure_status args h in
  env h' = env h /\
  recStatus (shown h') = recStatus (shown h) /\
  modelMessage (shown h') = modelMessage (shown h) /\
  recommendations (shown h') = DEMO_RECOMMENDATIONS /\
  clusterInsight (shown h') = Some DEMO_CLUSTER /\
  narrativeCopy (shown h') = DEMO_NARRATIVE.
Proof. intros D. unfold Panel.runInference. rewrite D. now cbn. Qed.

(** The render after a task that left the wallet ref and the timeout
    alone. *)
Lemma panel_coherent_render (prev : Panel.Page) (h : Home) :
  Panel.coherent USE_DEMO_SIGNALS prev ->
  walletRef (refs h) = walletRef (refs (Panel.home prev)) ->
  debounce (env h) = debounce (env (Panel.home prev)) \/ debounce (env h) = None ->
  (wallet (pref h) = wallet (pref (Panel.home prev)) \/
   wallet (pref h) <> wallet (pref (Panel.home prev))) ->
  (USE_DEMO_SIGNALS = true ->
   fetches (env h) = [] /\ inflight (env h) = [] /\
   recStatus (shown h) = idle /\ modelMessage (shown h) = None) ->
  Panel.coherent USE_DEMO_SIGNALS (Panel.render USE_DEMO_SIGNALS prev h).
Proof.
  intros [I1 I2 I3] Ew Ed _ Hdemo. split.
  - rewrite panel_render_walletRef, panel_render_pref.
    destruct (String.eqb_spec (wallet (pref (Panel.home prev))) (wallet (pref h)));
      congruence.
  - intros tm Htm.
    pose proof (panel_render_timeout prev h) as E.
    rewrite panel_render_pref, panel_render_shown.
    destruct (Z.eqb_spec (effectiveBias (pref (Panel.home prev)))
                         (effectiveBias (pref h))) as [Eb|Nb];
      cbn [andb] in E.
    + destruct (Panel.RecStatus_eqb _ _) eqn:Es.
      * apply panel_RecStatus_eqb_spec in Es. inversion E as [[E1 E2]].
        rewrite E1 in Htm. rewrite E2, <- Eb, <- Es.
        destruct Ed as [Ed|Ed]; [|congruence].
        apply I2. now rewrite <- Ed.
      * inversion E as [[E1 E2]]. rewrite E1 in Htm.
        injection Htm as <-. now rewrite E2.
    + inversion E as [[E1 E2]]. rewrite E1 in Htm.
      injection Htm as <-. now rewrite E2.
  - intros D. rewrite panel_render_fetches, panel_render_inflight,
      panel_render_shown. now apply Hdemo.
Qed.

Lemma panel_coherent_mount (t0 : Z) :
  Panel.coherent USE_DEMO_SIGNALS (Panel.mount USE_DEMO_SIGNALS DEMO_WEIGHT t0).
Proof.
  split; cbn; try easy. now intros tm [= <-].
Qed.

Lemma panel_coherent_handle (ev : Panel.Event) (p : Panel.Page) :
  Panel.coherent USE_DEMO_SIGNALS p ->
  Panel.coherent USE_DEMO_SIGNALS
    (Panel.handle USE_DEMO_SIGNALS toISOString ev p).
Proof.
  intros I. pose proof I as [I1 I2 I3]. destruct ev; cbn [Panel.handle].
  - apply panel_coherent_render;
      [exact I | reflexivity | now left | now left | exact I3].
  - apply panel_coherent_render;
      [exact I | reflexivity | now left | now left | exact I3].
  - apply panel_coherent_render;
      [exact I | reflexivity | now left | | exact I3].
    cbn. destruct (String.eqb_spec value (wallet (pref (Panel.home p)))); auto.
  - unfold Panel.handleRunSignal.
    match goal with
    | |- context [Panel.runInference _ _ ?b ?s ?a ?h] =>
        destruct (panel_runInference_keeps b s a h) as (K1 & K2 & K3);
        pose proof (panel_runInference_demo b s a h) as Kd
    end.
    apply panel_coherent_render;
      [exact I | exact K2 | left; exact K3 | left; now rewrite K1 |].
    intros D. destruct (Kd D) as (E & Es & Em & _).
    destruct (I3 D) as (Q1 & Q2 & Q3 & Q4).
    rewrite E, Es, Em. auto.
  - destruct (bool_decide _) eqn:Hin; [|exact I].
    apply bool_decide_eq_true in Hin.
    apply panel_coherent_render; [exact I | | | |].
    + now rewrite panel_resume_refs.
    + left. now rewrite panel_resume_env.
    + left. now rewrite panel_resume_pref.
    + intros D. destruct (I3 D) as (_ & Q & _). rewrite Q in Hin.
      now apply elem_of_nil in Hin.
  - split; cbn; rewrite ?abortCurrent_refs, ?abortCurrent_pref,
      ?abortCurrent_fetches, ?abortCurrent_inflight, ?abortCurrent_shown;
      try assumption.
    discriminate.
Qed.

Lemma panel_coherent_fire (tm : Timeout) (p : Panel.Page) :
  Panel.coherent USE_DEMO_SIGNALS p ->
  Panel.coherent USE_DEMO_SIGNALS
    (Panel.fire USE_DEMO_SIGNALS toISOString tm p).
Proof.
  intros [I1 I2 I3]. unfold Panel.fire.
  match goal with
  | |- context [Panel.runInference _ _ ?b ?s ?a ?h] =>
      destruct (panel_runInference_keeps b s a h) as (K1 & K2 & K3);
      pose proof (panel_runInference_demo b s a h) as Kd
  end.
  apply panel_coherent_render.
  - split; cbn; try assumption. discriminate.
  - exact K2.
  - right. exact K3.
  - left. now rewrite K1.
  - intros D. destruct (Kd D) as (E & Es & Em & _).
    destruct (I3 D) as (Q1 & Q2 & Q3 & Q4).
    rewrite E, Es, Em. cbn. auto.
Qed.

Lemma panel_coherent_advance (t : Z) (p : Panel.Page) :
  Panel.coherent USE_DEMO_SIGNALS p ->
  Panel.coherent USE_DEMO_SIGNALS
    (Panel.advance USE_DEMO_SIGNALS toISOString t p).
Proof.
  intros I. unfold Panel.advance.
  assert (I' : Panel.coherent USE_DEMO_SIGNALS
                 match debounce (env (Panel.home p)) with
                 | Some tm =>
                     if due tm <=? t
                     then Panel.fire USE_DEMO_SIGNALS toISOString tm p else p
                 | None => p
                 end).
  { destruct (debounce (env (Panel.home p))) as [tm|]; [|exact I].
    destruct (due tm <=? t); [|exact I]. now apply panel_coherent_fire. }
  destruct I' as [I1 I2 I3]. now split.
Qed.

Lemma panel_reachable_coherent (p : Panel.Page) :
  Panel.reachable USE_DEMO_SIGNALS DEMO_WEIGHT toISOString p ->
  Panel.coherent USE_DEMO_SIGNALS p.
Proof.
  induction 1.
  - apply panel_coherent_mount.
  - now apply panel_coherent_handle.
  - now apply panel_coherent_advance.
Qed.

(** X12.  In the page with the preference panel a debounced run never
    supersedes a call.  With live signals, when the timeout comes due in
    a reachable state whose status is Loading, its run is dropped:
    nothing is sent, no controller is aborted, the display stays as it
    is, and no timeout is left pending.  The bias that armed the timeout
    goes out only with the run that follows the response. *)
Theorem panel_debounced_run_waits (tm : Timeout) (t : Z) (p : Panel.Page) :
  USE_DEMO_SIGNALS = false ->
  Panel.reachable USE_DEMO_SIGNALS DEMO_WEIGHT toISOString p ->
  debounce (env (Panel.home p)) = Some tm ->
  due tm <= t ->
  recStatus (shown (Panel.home p)) = loading ->
  let p' := Panel.advance USE_DEMO_SIGNALS toISOString t p in
  fetches (env (Panel.home p')) = fetches (env (Panel.home p)) /\
  controllers (env (Panel.home p')) = controllers (env (Panel.home p)) /\
  shown (Panel.home p') = shown (Panel.home p) /\
  debounce (env (Panel.home p')) = None.
Proof.
  intros D Hr Htm Hdue Hl p'.
  destruct (panel_reachable_coherent p Hr) as [_ I2 _].
  destruct (I2 tm Htm) as [_ Ha].
  assert (Ef : Panel.fire USE_DEMO_SIGNALS toISOString tm p =
               {| Panel.home :=
                    Panel.home p
                    |> setClock (Z.max (clock (env (Panel.home p))) (due tm))
                    |> setDebounce None;
                  Panel.armed_status := Panel.armed_status p |}).
  { unfold Panel.fire, Panel.runInference. rewrite D, Ha, Hl. cbn [isLoading andb].
    unfold Panel.render, Panel.walletRefEffect, Panel.weightRefEffect.
    cbn. rewrite String.eqb_refl, Z.eqb_refl. cbn.
    rewrite Z.eqb_refl, Hl. reflexivity. }
  unfold p', Panel.advance. rewrite Htm.
  replace (due tm <=? t) with true by lia. rewrite Ef. easy.
Qed.

(** X13.  In the page with the preference panel, with live signals, a
    manual run from a reachable state sends the weights of the current
    effective bias, not clamped, and the wallet text as typed, also when
    it is blank.  A focus toggle before it changes the weight on screen
    but neither the bias nor the pending timeout, so the request after a
    toggle still carries the bias of the last slider move. *)
Theorem panel_manual_run_payload (mode : FocusMode) (p : Panel.Page) :
  USE_DEMO_SIGNALS = false ->
  Panel.reachable USE_DEMO_SIGNALS DEMO_WEIGHT toISOString p ->
  let sent (q : Panel.Page) :=
    fetches (env (Panel.home
                    (Panel.handle USE_DEMO_SIGNALS toISOString
                       Panel.RunSignal q))) in
  let request :=
    {| body :=
         {| Request.price_weight :=
              inject_Z (effectiveBias (pref (Panel.home p))) / 100;
            Request.sentiment_weight :=
              1 - inject_Z (effectiveBias (pref (Panel.home p))) / 100;
            Request.wallet := Some (wallet (pref (Panel.home p))) |};
       signal := length (controllers (env (Panel.home p))) |} in
  let toggled :=
    Panel.handle USE_DEMO_SIGNALS toISOString (Panel.FocusChange mode) p in
  sent p = (fetches (env (Panel.home p)) ++ [request])%list /\
  weight (pref (Panel.home toggled))
  = match mode with price => 75 | sentiment => 25 end /\
  effectiveBias (pref (Panel.home toggled)) = effectiveBias (pref (Panel.home p)) /\
  debounce (env (Panel.home toggled)) = debounce (env (Panel.home p)) /\
  sent toggled = (fetches (env (Panel.home p)) ++ [request])%list.
Proof.
  intros D Hr sent request toggled.
  assert (Hsent : forall q,
             Panel.coherent USE_DEMO_SIGNALS q ->
             sent q =
             (fetches (env (Panel.home q))
              ++ [{| body :=
                       {| Request.price_weight :=
                            inject_Z (effectiveBias (pref (Panel.home q))) / 100;
                          Request.sentiment_weight :=
                            1 - inject_Z (effectiveBias (pref (Panel.home q))) / 100;
                          Request.wallet := Some (wallet (pref (Panel.home q))) |};
                     signal := length (controllers (env (Panel.home q))) |}])%list).
  { intros q [I1 _ _]. unfold sent. cbn [Panel.handle].
    rewrite panel_render_fetches. unfold Panel.handleRunSignal.
    rewrite panel_runInference_sends by (exact D || (cbn; apply andb_false_r)).
    cbn. now rewrite I1. }
  assert (Ic : Panel.coherent USE_DEMO_SIGNALS p)
    by now apply panel_reachable_coherent.
  assert (It : Panel.coherent USE_DEMO_SIGNALS toggled)
    by now apply panel_coherent_handle.
  assert (Tp : pref (Panel.home toggled) =
               pref (Panel.handleFocusChange mode (Panel.home p))).
  { unfold toggled. cbn [Panel.handle]. apply panel_render_pref. }
  assert (Td : debounce (env (Panel.home toggled)) = debounce (env (Panel.home p))).
  { unfold toggled. cbn [Panel.handle].
    pose proof (panel_render_timeout p
                  (Panel.handleFocusChange mode (Panel.home p))) as E.
    cbn in E. rewrite Z.eqb_refl in E.
    replace (Panel.RecStatus_eqb (recStatus (shown (Panel.home p)))
               (recStatus (shown (Panel.home p)))) with true in E
      by (symmetry; now apply panel_RecStatus_eqb_spec).
    cbn in E. now inversion E. }
  split; [now apply Hsent|]. split; [now rewrite Tp|].
  split; [now rewrite Tp|]. split; [exact Td|].
  rewrite (Hsent toggled It), Tp. unfold toggled. cbn [Panel.handle].
  rewrite panel_render_fetches, panel_render_controllers. reflexivity.
Qed.

(** X14.  In the page with the preference panel, with demo signals, the
    status and the message are never written: in every reachable state
    the status is Idle, no message is set and no request has been sent,
    and a manual run puts the demo recommendations, cluster and narrative
    on display. *)
Theorem panel_demo_leaves_status (p : Panel.Page) :
  USE_DEMO_SIGNALS = true ->
  Panel.reachable USE_DEMO_SIGNALS DEMO_WEIGHT toISOString p ->
  let p' := Panel.handle USE_DEMO_SIGNALS toISOString Panel.RunSignal p in
  recStatus (shown (Panel.home p)) = idle /\
  modelMessage (shown (Panel.home p)) = None /\
  fetches (env (Panel.home p)) = [] /\
  recommendations (shown (Panel.home p')) = DEMO_RECOMMENDATIONS /\
  clusterInsight (shown (Panel.home p')) = Some DEMO_CLUSTER /\
  narrativeCopy (shown (Panel.home p')) = DEMO_NARRATIVE /\
  modelMessage (shown (Panel.home p')) = None.
Proof.
  intros D Hr p'.
  destruct (panel_reachable_coherent p Hr) as [_ _ I3].
  destruct (I3 D) as (Q1 & Q2 & Q3 & Q4).
  split; [exact Q3|]. split; [exact Q4|]. split; [exact Q1|].
  unfold p'. cbn [Panel.handle]. rewrite panel_render_shown.
  unfold Panel.handleRunSignal.
  match goal with
  | |- context [Panel.runInference _ _ ?b ?s ?a ?h] =>
      destruct (panel_runInference_demo b s a h D) as (_ & _ & Em & E1 & E2 & E3)
  end.
  rewrite E1, E2, E3, Em. auto.
Qed.

(** * The trust datasets *)

(** What holds of the trust state from the mount on: datasets are stored
    only together with the status Idle, the status is Idle only once the
    call has settled, and while the call is pending and not cancelled the
    status is Loading. *)
Lemma trust_reachable_invariant (s : Trust.State) :
  Trust.reachable s ->
  (Trust.trustStatus s <> idle -> Trust.trustDatasets s = []) /\
  (Trust.trustStatus s = idle -> Trust.pending s = false) /\
  (Trust.pending s = true -> Trust.trustStatus s = loading) /\
  (Trust.trustStatus s = error -> Trust.pending s = false).
Proof.
  induction 1 as [|ev s Hr (I1 & I2 & I3 & I4)].
  - cbn. repeat split; try easy.
  - destruct ev as [o|]; cbn [Trust.handle].
    + destruct (Trust.pending s) eqn:Hp; [|now rewrite Hp].
      specialize (I3 eq_refl). unfold Trust.resume. cbn.
      destruct (Trust.awaited o), (Trust.cancelled s); cbn;
        repeat split; try easy; try congruence;
        intros; apply I1; congruence.
    + cbn. repeat split; assumption.
Qed.

(** X15.  The trust panel never shows two of its parts at once.  From
    the mount on, datasets are stored only when the status is Idle, so
    the grid is exactly one of: the skeleton alone while Loading, the
    error box alone on Error, and the cards of all stored datasets when
    Idle; and the badge says which. *)
Theorem trust_panel_shows_one_part (s : Trust.State) :
  Trust.reachable s ->
  let grid := Trust.body (Trust.trustStatus s) (Trust.trustDatasets s) in
  (Trust.trustStatus s = loading ->
   grid = {| Trust.skeleton := true; Trust.errorBox := false;
             Trust.cards := [] |}) /\
  (Trust.trustStatus s = error ->
   grid = {| Trust.skeleton := false; Trust.errorBox := true;
             Trust.cards := [] |}) /\
  (Trust.trustStatus s = idle ->
   grid = {| Trust.skeleton := false; Trust.errorBox := false;
             Trust.cards := Trust.trustDatasets s |}) /\
  (Trust.trustDatasets s <> [] ->
   Trust.badge (Trust.trustStatus s) = "Verified by EigenLayer").
Proof.
  intros Hr grid. destruct (trust_reachable_invariant s Hr) as (I1 & _).
  subst grid. unfold Trust.body.
  split; [|split; [|split]].
  - intros E. rewrite E, I1 by congruence. reflexivity.
  - intros E. rewrite E. reflexivity.
  - intros E. rewrite E. reflexivity.
  - intros Hne. destruct (Trust.trustStatus s) eqn:E; try reflexivity;
      exfalso; apply Hne, I1; discriminate.
Qed.

(** X16.  The trust call settles into exactly one of three outcomes, and
    a cancelled one into none.  From the mount on, while the call is
    pending: if the effect was cleaned up, its settlement changes neither
    the datasets nor the status; otherwise a 2xx response with a decoded
    body stores the body's datasets (the empty list when the key is
    missing) with status Idle, and any failure leaves the list empty with
    status Error.  Once settled, nothing changes any more. *)
Theorem trust_fetch_settles_once
    (o o' : Trust.Settlement) (s : Trust.State) :
  Trust.reachable s ->
  Trust.pending s = true ->
  let s' := Trust.handle (Trust.Settled o) s in
  (Trust.cancelled s = true ->
   Trust.trustDatasets s' = Trust.trustDatasets s /\
   Trust.trustStatus s' = Trust.trustStatus s) /\
  (Trust.cancelled s = false ->
   forall payload, Trust.awaited o = Some payload ->
     Trust.trustDatasets s' = default [] (Trust.datasets payload) /\
     Trust.trustStatus s' = idle) /\
  (Trust.cancelled s = false ->
   Trust.awaited o = None ->
   Trust.trustDatasets s' = [] /\ Trust.trustStatus s' = error) /\
  Trust.handle (Trust.Settled o') s' = s'.
Proof.
  intros Hr Hp s'.
  destruct (trust_reachable_invariant s Hr) as (I1 & _ & I3 & _).
  specialize (I3 Hp).
  assert (Hd : Trust.trustDatasets s = []) by (apply I1; congruence).
  subst s'. cbn [Trust.handle]. rewrite Hp. unfold Trust.resume. cbn.
  split; [|split; [|split]].
  - intros Hc. rewrite Hc. now destruct (Trust.awaited o).
  - intros Hc payload Ho. now rewrite Ho, Hc.
  - intros Hc Ho. now rewrite Ho, Hc.
  - destruct (Trust.awaited o), (Trust.cancelled s); reflexivity.
Qed.

(** * The confidence figure *)

Lemma confidence_closed_form (focus : FocusMode) (m : nat) :
  (m < 101)%nat ->
  Confidence.confidenceScore focus (Binary64.ofZ (Z.of_nat m)) =
  Binary64.ofZ ((match focus with price => 82 | sentiment => 75 end)
                + (Z.of_nat m + 10) / 20).
Proof.
  intros Hm.
  destruct focus;
    do 101 (destruct m as [|m]; [vm_compute; reflexivity|]); lia.
Qed.

(** X17.  For every slider position from 0 to 100, the confidence figure
    the engine computes in double precision is exactly
    82 + floor((weight + 10) / 20) under the price focus and
    75 + floor((weight + 10) / 20) under the sentiment focus: no rounding
    error of the doubles ever shows.  The figure therefore moves in steps
    of one per 20 points of the slider and stays between 75 and 87. *)
Theorem confidenceScore_closed_form (focus : FocusMode) (weight : Z) :
  0 <= weight <= 100 ->
  let base := match focus with price => 82 | sentiment => 75 end in
  Confidence.confidenceScore focus (Binary64.ofZ weight)
  = Binary64.ofZ (base + (weight + 10) / 20) /\
  75 <= base + (weight + 10) / 20 <= 87.
Proof.
  intros Hw base. split.
  - replace weight with (Z.of_nat (Z.to_nat weight)) by lia.
    apply confidence_closed_form. lia.
  - assert (0 <= (weight + 10) / 20 < 6).
    { split; [apply Z.div_pos; lia|].
      apply Z.div_lt_upper_bound; lia. }
    subst base. destruct focus; lia.
Qed.
End Page.

(** * Concrete sessions

    The sessions below run the component with the built-ins of [Builtin]
    and, unless said otherwise, live signals and a default weight of 65. *)

Abbreviation iso := Builtin.toISOString.
Abbreviation trim := Builtin.trim.
Abbreviation liveRun := (run false Builtin.toISOString Builtin.trim).
Abbreviation liveHandle := (handle false Builtin.toISOString Builtin.trim).
Abbreviation liveAdvance := (advance false Builtin.toISOString Builtin.trim).
Abbreviation liveRunInference :=
  (runInference false Builtin.toISOString Builtin.trim).
Abbreviation liveReachable :=
  (reachable false 65 Builtin.toISOString Builtin.trim).

(** C4 at two slider positions. *)
Lemma snapWeight_step_witness : snapWeight 30 = 50 /\ snapWeight 75 = 60.
Proof.
  split.
  - apply (proj1 snapWeight_step 30). lia.
  - apply (proj1 (proj2 snapWeight_step) 75). lia.
Defined.


(** C1: a manual run A, then the debounced run B; B's response arrives,
    then A's.  The display holds B's recommendations. *)
Lemma stale_response_discarded_witness :
  let recsA := [{| Dashboard.action := "unstake";
                   Dashboard.probability := 0.7;
                   Dashboard.rationale := None |}] in
  let recsB := [{| Dashboard.action := "stake";
                   Dashboard.probability := 0.9;
                   Dashboard.rationale := None |}] in
  let rA := {| Response.recommendations := Some recsA;
               Response.cluster := None; Response.message := Some "A";
               Response.narrative := None; Response.generated_at := None |} in
  let rB := {| Response.recommendations := Some recsB;
               Response.cluster := None; Response.message := Some "B";
               Response.narrative := None; Response.generated_at := None |} in
  let argsA := {| trigger := Manual; bias := None; includeWallet := true |} in
  let argsB := {| trigger := Auto; bias := Some 60; includeWallet := false |} in
  let hA := liveRunInference argsA (mount false 65 0) in
  let hB := liveRunInference argsB hA in
  let h1 := liveHandle (Settled 1 (Responded 200 (Some rB))) hB in
  let h2 := liveHandle (Settled 0 (Responded 200 (Some rA))) h1 in
  recommendations (shown h1) = recsB /\ shown h2 = shown h1.
Proof.
  intros recsA recsB rA rB argsA argsB hA hB h1 h2.
  pose proof (stale_response_discarded false 65 iso trim argsA argsB 200 rB
                (Responded 200 (Some rA)) (mount false 65 0)
                eq_refl ltac:(lia)) as H.
  cbv zeta in H. destruct H as (_ & E1 & _ & E2 & _).
  split; [|exact E2].
  exact (f_equal recommendations E1).
Defined.

(** C2 does not hold as stated: a manual run at 100 ms leaves the timeout of
    the mount in place, due at 600 ms; when it fires, a second request
    goes out and the controller of the manual run is aborted. *)
Lemma manual_run_keeps_timeout :
  let h := liveRun (mount false 65 0) [(100, RunSignal)] in
  debounce (env h) = Some {| due := 600; captured_bias := 60 |} /\
  debounce (env h) <> None /\
  length (fetches (env h)) = 1%nat /\
  length (fetches (env (liveAdvance 600 h))) = 2%nat /\
  aborted 0 (liveAdvance 600 h) = true.
Proof. cbv zeta. repeat split; try reflexivity. discriminate. Qed.

(** C2 as the code has it: the debounced call 0 is in flight when the button is
    pressed at 700 ms; it is aborted and its late response changes
    nothing. *)
Lemma manual_run_invalidates_calls_witness :
  let h := liveRun (mount false 65 0) [(700, WalletInput "0xabc")] in
  let h' := liveHandle RunSignal h in
  let later := liveRun h' [(800, SliderInput 20)] in
  aborted 0 h' = true /\
  shown (liveHandle (Settled 0 (Responded 200 (Some Response.empty))) later)
  = shown later.
Proof.
  intros h h' later.
  assert (Hr : liveReachable h) by apply run_reachable, reach_mount.
  assert (Hin : 0%nat ∈ inflight (env h)) by (vm_compute; constructor).
  pose proof (manual_run_invalidates_calls false 65 iso trim 0%nat
                (Responded 200 (Some Response.empty))
                [(800, SliderInput 20)] h Hr) as H.
  cbv zeta in H. destruct H as [_ H]. exact (H Hin).
Defined.



(** C5: demo signals on; the button and a slider move. *)
Lemma demo_mode_serves_snapshot_witness :
  let h := mount true 65 0 in
  let moved := handle true iso trim (SliderInput 20) h in
  showsDemoSnapshot (handle true iso trim RunSignal h) /\
  showsDemoSnapshot (advance true iso trim 5 moved) /\
  fetches (env (advance true iso trim 5 moved)) = [].
Proof.
  intros h moved.
  pose proof (demo_mode_serves_snapshot true 65 iso trim (SliderInput 20) 5 h
                eq_refl) as H.
  cbv zeta in H. destruct H as ((S1 & _) & H2 & _).
  destruct H2 as (S2 & F2).
  - exact I.
  - left. vm_compute. discriminate.
  - vm_compute. discriminate.
  - repeat split; assumption.
Defined.

(** C6: the slider goes to 30, 55 and 60. *)
Lemma debounce_single_dispatch_witness :
  let h := liveRun (mount false 65 0) [(0, SliderInput 30);
                                        (100, SliderInput 55);
                                        (150, SliderInput 60)] in
  fetches (env (liveAdvance 699 h)) = [] /\
  length (fetches (env (liveAdvance 750 h))) = 1%nat.
Proof.
  intros h.
  pose proof (debounce_single_dispatch false 65 iso trim 30 55 60 699 750
                eq_refl ltac:(lia) ltac:(lia) ltac:(lia) ltac:(lia)
                ltac:(lia)) as H.
  cbv zeta in H. destruct H as (_ & _ & Hearly & f & Hlate & _).
  split; [exact Hearly|].
  exact (f_equal (@length Fetch) Hlate).
Defined.

(** C7: the manual call 0 is superseded by the debounced call 1 at
    600 ms; its response arrives after a later slider move. *)
Lemma cancelled_completion_discarded_witness :
  let h := liveRun (mount false 65 0) [(100, RunSignal);
                                        (700, WalletInput "0xabc")] in
  let later := liveRun h [(900, SliderInput 10)] in
  let late := Settled 0 (Responded 200 (Some Response.empty)) in
  0%nat ∈ inflight (env later) /\
  shown (liveHandle late later) = shown later.
Proof.
  intros h later late.
  pose proof (cancelled_completion_discarded false iso trim
                {| trigger := Manual; bias := None; includeWallet := true |}
                0%nat (Responded 200 (Some Response.empty)) h
                [(900, SliderInput 10)]) as H.
  cbv zeta in H. destruct H as (_ & _ & H).
  destruct (H eq_refl) as (_ & E & _).
  split; [vm_compute; constructor | exact E].
Defined.

(** C9: the debounced call comes back with an empty object. *)
Lemma projection_defaults_witness :
  let h := liveAdvance 600 (mount false 65 0) in
  let h' := liveHandle (Settled 0 (Responded 200 (Some Response.empty))) h in
  recommendations (shown h') = [] /\
  clusterInsight (shown h') = None /\
  narrativeCopy (shown h') = DEFAULT_NARRATIVE /\
  lastRunAt (shown h') = Some "1970-01-01T00:00:00.600Z" /\
  recStatus (shown h') = idle.
Proof.
  intros h h'.
  assert (Hin : 0%nat ∈ inflight (env h)) by (vm_compute; constructor).
  pose proof (projection_defaults false iso trim 0%nat 200 Response.empty h
                ltac:(lia) Hin eq_refl) as H.
  cbv zeta in H.
  destruct H as (R & _ & C & N & _ & G & _ & _ & S).
  split; [|split; [|split; [|split]]].
  - exact (R eq_refl).
  - exact C.
  - exact (N eq_refl).
  - exact (G eq_refl).
  - exact S.
Defined.

(** C10: a session with a default weight of 30 that sends three
    requests. *)
Lemma requests_carry_snapped_mix_witness :
  let h := liveRun (mount false 30 0)
             [(0, SliderInput 80); (700, FocusChange sentiment);
              (2000, RunSignal)] in
  length (fetches (env h)) = 3%nat /\
  Forall (fun f =>
            (Request.price_weight (body f) == 0.5 /\
             Request.sentiment_weight (body f) == 0.5)%Q \/
            (Request.price_weight (body f) == 0.6 /\
             Request.sentiment_weight (body f) == 0.4)%Q)
         (fetches (env h)).
Proof.
  intros h.
  assert (Hr : reachable false 30 iso trim h) by apply run_reachable, reach_mount.
  pose proof (requests_carry_snapped_mix false 30 iso trim h Hr) as H.
  destruct H as (_ & _ & _ & F & _).
  split; [reflexivity | exact F].
Defined.

(** * Concrete sessions for the further properties *)

Abbreviation panelMount := (Panel.mount false 65).
Abbreviation panelHandle := (Panel.handle false Builtin.toISOString).
Abbreviation panelAdvance := (Panel.advance false Builtin.toISOString).
Abbreviation panelRun := (Panel.run false Builtin.toISOString).
Abbreviation panelReachable :=
  (Panel.reachable false 65 Builtin.toISOString).

(** X1: a wallet is typed and the slider moved. *)
Lemma refs_mirror_state_witness :
  let h := liveRun (mount false 65 0) [(10, WalletInput "0xabc");
                                       (20, SliderInput 30)] in
  walletRef (refs h) = "0xabc" /\ weightRef (refs h) = 50.
Proof.
  intros h.
  assert (Hr : liveReachable h) by apply run_reachable, reach_mount.
  exact (refs_mirror_state false 65 iso trim h Hr).
Defined.

(** X2: the focus is toggled to sentiment, then the slider is moved to
    0. *)
Lemma bias_is_snapped_weight_witness :
  let h := liveRun (mount false 65 0) [(10, FocusChange sentiment)] in
  effectiveBias (pref h) = 50 /\
  focus (pref (liveHandle (SliderInput 0) h)) = price.
Proof.
  intros h.
  assert (Hr : liveReachable h) by apply run_reachable, reach_mount.
  destruct (bias_is_snapped_weight false 65 iso trim 0 h Hr) as (E1 & E2 & _).
  split; [exact E1 | exact E2].
Defined.

(** X3: the slider is moved at 20 ms. *)
Lemma timeout_carries_current_bias_witness :
  let h := liveRun (mount false 65 0) [(20, SliderInput 30)] in
  debounce (env h) = Some {| due := 620; captured_bias := 50 |} /\
  effectiveBias (pref h) = 50 /\ 620 <= clock (env h) + 600.
Proof.
  intros h.
  assert (Hr : liveReachable h) by apply run_reachable, reach_mount.
  destruct (timeout_carries_current_bias false 65 iso trim
              {| due := 620; captured_bias := 50 |} h Hr eq_refl) as [E1 E2].
  split; [reflexivity|]. split; [symmetry; exact E1 | exact E2].
Defined.

(** X4: the debounced call of the mount is in flight. *)
Lemma live_call_is_current_witness :
  let h := liveAdvance 600 (mount false 65 0) in
  inferenceController (refs h) = Some 0%nat /\
  recStatus (shown h) = loading /\
  runSignalDisabled false h = true.
Proof.
  intros h.
  assert (Hr : liveReachable h) by apply reach_advance, reach_mount.
  assert (Hin : 0%nat ∈ inflight (env h)) by (vm_compute; constructor).
  exact (live_call_is_current false 65 iso trim 0%nat h Hr Hin eq_refl).
Defined.

(** X5: a wallet is typed with blanks around it, then the button is
    pressed. *)
Lemma manual_run_sends_screen_state_witness :
  let h := liveRun (mount false 65 0) [(10, WalletInput "  0xabc ")] in
  map (fun f => Request.wallet (body f))
      (fetches (env (liveHandle RunSignal h)))
  = [Some "0xabc"].
Proof.
  intros h.
  assert (Hr : liveReachable h) by apply run_reachable, reach_mount.
  pose proof (manual_run_sends_screen_state false 65 iso trim h eq_refl Hr)
    as E.
  exact (f_equal (map (fun f => Request.wallet (body f))) E).
Defined.

(** X6: the slider is moved to 20 right after the mount. *)
Lemma bias_change_sends_after_delay_witness :
  let h' := liveHandle (SliderInput 20) (mount false 65 0) in
  fetches (env (liveAdvance 599 h')) = [] /\
  length (fetches (env (liveAdvance 600 h'))) = 1%nat.
Proof.
  intros h'.
  assert (Hch : effectiveBias (pref h') <> effectiveBias (pref (mount false 65 0))
                \/ weight (pref h') <> weight (pref (mount false 65 0))).
  { left. vm_compute. discriminate. }
  destruct (bias_change_sends_after_delay false iso trim (SliderInput 20) 599
              (mount false 65 0) eq_refl I Hch) as [Early _].
  destruct (bias_change_sends_after_delay false iso trim (SliderInput 20) 600
              (mount false 65 0) eq_refl I Hch) as [_ Late].
  split.
  - apply Early. vm_compute. reflexivity.
  - exact (f_equal (@length Fetch) (Late ltac:(vm_compute; discriminate))).
Defined.

(** X7: the page is left while the debounced call is in flight; its
    response arrives later. *)
Lemma unmount_quiesces_witness :
  let h := liveAdvance 600 (mount false 65 0) in
  let trace := [(900, Settled 0 (Responded 200 (Some Response.empty)))] in
  shown (liveRun (liveHandle Unmount h) trace) = shown h /\
  fetches (env (liveRun (liveHandle Unmount h) trace)) = fetches (env h).
Proof.
  intros h trace.
  assert (Hr : liveReachable h) by apply reach_advance, reach_mount.
  destruct (unmount_quiesces false 65 iso trim trace h Hr) as (_ & _ & Q).
  apply Q. repeat constructor.
Defined.

(** X8: the debounced call is rejected. *)
Lemma error_shows_fallback_snapshot_witness :
  let h := liveRun (mount false 65 0) [(700, Settled 0 Rejected)] in
  recommendations (shown h) = DEMO_RECOMMENDATIONS /\
  WalletSignalCard.messageLine (recStatus (shown h)) (modelMessage (shown h))
  = Some ("Heads up: " ++ FALLBACK_MESSAGE).
Proof.
  intros h.
  assert (Hr : liveReachable h) by apply run_reachable, reach_mount.
  destruct (error_shows_fallback_snapshot false 65 iso trim h Hr eq_refl)
    as (E1 & _ & _ & _ & _ & E6).
  split; [exact E1 | exact E6].
Defined.

(** X9: the debounced call is in flight. *)
Lemma loading_shows_progress_witness :
  let h := liveAdvance 600 (mount false 65 0) in
  ActionStackCard.skeleton
    (ActionStackCard.body (recommendations (shown h)) (recStatus (shown h)))
  = true /\
  runSignalDisabled false h = true.
Proof.
  intros h.
  assert (Hr : liveReachable h) by apply reach_advance, reach_mount.
  destruct (loading_shows_progress false 65 iso trim h Hr eq_refl)
    as (_ & E2 & E3).
  split; [exact (f_equal ActionStackCard.skeleton E2) | exact E3].
Defined.

(** X10: the six metrics of the fallback cluster give four tiles. *)
Lemma metric_tiles_first_four_witness :
  length (ClusterInsightCard.metricTiles
            (default [] (Dashboard.metrics DEMO_CLUSTER))) = 4%nat.
Proof.
  exact (proj1 (metric_tiles_first_four
                  (default [] (Dashboard.metrics DEMO_CLUSTER)))).
Defined.

(** X11: the debounced call of the mount comes back with an empty
    object; 600 ms later a second request is out. *)
Lemma panel_response_starts_next_run_witness :
  let p := panelAdvance 600 (panelMount 0) in
  let p1 := panelHandle
              (Panel.Settled 0 (Panel.Responded 200 (inr Response.empty))) p in
  length (fetches (env (Panel.home p))) = 1%nat /\
  recStatus (shown (Panel.home p1)) <> loading /\
  length (fetches (env (Panel.home (panelAdvance 1200 p1)))) = 2%nat.
Proof.
  intros p p1.
  assert (Hin : 0%nat ∈ inflight (env (Panel.home p)))
    by (vm_compute; constructor).
  assert (Hn : Panel.awaited (Panel.Responded 200 (inr Response.empty))
               <> inl Panel.AbortError) by (vm_compute; discriminate).
  destruct (panel_response_starts_next_run false iso 0%nat
              (Panel.Responded 200 (inr Response.empty)) 1200 p
              eq_refl Hin eq_refl eq_refl Hn) as (E1 & _ & E3).
  split; [reflexivity|]. split; [exact E1|].
  exact (f_equal (@length Fetch) (E3 ltac:(vm_compute; discriminate))).
Defined.

(** X12: the slider is moved at 700 ms, while the debounced call of the
    mount is in flight; its timeout comes due at 1300 ms. *)
Lemma panel_debounced_run_waits_witness :
  let p := panelRun (panelMount 0) [(700, Panel.SliderInput 20)] in
  debounce (env (Panel.home p)) = Some {| due := 1300; captured_bias := 50 |} /\
  fetches (env (Panel.home (panelAdvance 1300 p))) = fetches (env (Panel.home p)) /\
  debounce (env (Panel.home (panelAdvance 1300 p))) = None.
Proof.
  intros p.
  assert (Hr : panelReachable p)
    by apply Panel.reach_handle, Panel.reach_advance, Panel.reach_mount.
  destruct (panel_debounced_run_waits false 65 iso
              {| due := 1300; captured_bias := 50 |} 1300 p
              eq_refl Hr eq_refl ltac:(vm_compute; discriminate) eq_refl)
    as (E1 & _ & _ & E4).
  split; [reflexivity|]. split; [exact E1 | exact E4].
Defined.

(** X13: the focus is toggled to sentiment and the button pressed, with
    an empty wallet field. *)
Lemma panel_manual_run_payload_witness :
  let p := panelMount 0 in
  let toggled := panelHandle (Panel.FocusChange sentiment) p in
  weight (pref (Panel.home toggled)) = 25 /\
  map (fun f => (Request.price_weight (body f), Request.wallet (body f)))
      (fetches (env (Panel.home (panelHandle Panel.RunSignal toggled))))
  = [((inject_Z 60 / 100)%Q, Some "")].
Proof.
  intros p toggled.
  assert (Hr : panelReachable p) by apply Panel.reach_mount.
  destruct (panel_manual_run_payload false 65 iso sentiment p eq_refl Hr)
    as (_ & E2 & _ & _ & E5).
  split; [exact E2|].
  exact (f_equal
           (map (fun f => (Request.price_weight (body f),
                           Request.wallet (body f)))) E5).
Defined.

(** X14: demo signals on; the button is pressed after the mount. *)
Lemma panel_demo_leaves_status_witness :
  let p := Panel.mount true 65 0 in
  let p' := Panel.handle true Builtin.toISOString Panel.RunSignal p in
  recStatus (shown (Panel.home p)) = idle /\
  recommendations (shown (Panel.home p')) = DEMO_RECOMMENDATIONS /\
  modelMessage (shown (Panel.home p')) = None.
Proof.
  intros p p'.
  destruct (panel_demo_leaves_status true 65 iso p eq_refl
              (Panel.reach_mount true 65 iso 0))
    as (E1 & _ & _ & E4 & _ & _ & E7).
  split; [exact E1|]. split; [exact E4 | exact E7].
Defined.

(** X15: the registry answers with one dataset. *)
Lemma trust_panel_shows_one_part_witness :
  let d := {| Trust.id := "prices"; Trust.label := "Price history";
              Trust.status := "ok"; Trust.sha256 := None;
              Trust.last_verified_at := None;
              Trust.eigenlayer_attestation := None;
              Trust.zkp_simulation := None |} in
  let s := Trust.handle
             (Trust.Settled
                (Trust.Responded 200 (Some {| Trust.datasets := Some [d] |})))
             Trust.mount in
  Trust.body (Trust.trustStatus s) (Trust.trustDatasets s)
  = {| Trust.skeleton := false; Trust.errorBox := false; Trust.cards := [d] |}.
Proof.
  intros d s.
  assert (Hr : Trust.reachable s) by apply Trust.reach_handle, Trust.reach_mount.
  destruct (trust_panel_shows_one_part s Hr) as (_ & _ & E & _).
  exact (E eq_refl).
Defined.

(** X16: the registry answers with status 500. *)
Lemma trust_fetch_settles_once_witness :
  let s' := Trust.handle (Trust.Settled (Trust.Responded 500 None))
              Trust.mount in
  Trust.trustDatasets s' = [] /\ Trust.trustStatus s' = error.
Proof.
  intros s'.
  destruct (trust_fetch_settles_once (Trust.Responded 500 None) Trust.Rejected
              Trust.mount Trust.reach_mount eq_refl) as (_ & _ & E & _).
  exact (E eq_refl eq_refl).
Defined.

(** X17: the default weight 65 under the price focus. *)
Lemma confidenceScore_closed_form_witness :
  Confidence.confidenceScore price (Binary64.ofZ 65) = Binary64.ofZ 85.
Proof.
  exact (proj1 (confidenceScore_closed_form price 65 ltac:(lia))).
Defined.
